(** * Nexia Room IQ sensors: a shallow embedding of [__init__.py] and [sensor.py]

    The add-on patches two functions of the sibling Nexia integration and
    derives sensor entities from the per-zone JSON the sibling already holds.

    Modelling conventions.
    - Python values read from the vendor JSON are terms of [json]; a Python
      [dict] is an association list whose left-most binding of a key is the
      one in effect, [None] is [JNull], a [float] is the rational it denotes;
      NaN and the infinities, which Python's decoder also accepts, are not
      represented, and nothing below relies on [==] being reflexive on a
      float.
    - Python exceptions are the [Raise] outcome of the [result] type;
      [try ... except Exception] is [try_except].
    - Calls into the sibling library (thermostat and zone look-ups, the request
      for fresh sensor state, the original set-up and refresh functions) are
      outcomes supplied by the environment.
    - Logger calls neither raise nor change state and are left out, and so are
      the display attributes of an entity (unique id, name, unit, classes).
    - Task cancellation during a sleep is outside the model. *)

From Stdlib Require Import ZArith QArith Bool List String Lia.
Import ListNotations.
Open Scope string_scope.
Open Scope Z_scope.
Open Scope list_scope.

(** ** Exceptions and fallible results *)

Inductive exn :=
| AttributeError
| KeyError
| TypeError
| ImportError
| RecursionError
| OtherError (msg : string).

Inductive result (A : Type) :=
| Ok (a : A)
| Raise (e : exn).
Arguments Ok {A} a.
Arguments Raise {A} e.

Module Res.
Definition bind {A B} (m : result A) (k : A -> result B) : result B :=
  match m with
  | Ok a => k a
  | Raise e => Raise e
  end.

(** [try: m except Exception: h] *)
Definition try_except {A} (m : result A) (h : exn -> result A) : result A :=
  match m with
  | Ok a => Ok a
  | Raise e => h e
  end.
End Res.

Declare Scope res_scope.
Delimit Scope res_scope with res.
Notation "x <- m ;; k" := (Res.bind m (fun x => k))
  (at level 61, m at next level, right associativity) : res_scope.
Notation "m ;;; k" := (Res.bind m (fun _ => k))
  (at level 61, right associativity) : res_scope.

(** ** JSON values as Python sees them *)

#[warnings="-register-all"]
Inductive json :=
| JNull
| JBool (b : bool)
| JInt (z : Z)
| JFloat (q : Q)
| JStr (s : string)
| JList (l : list json)
| JDict (d : list (string * json)).

(** [d.get(key)] on the association list of a dict. *)
Fixpoint dict_get (key : string) (d : list (string * json)) : option json :=
  match d with
  | [] => None
  | (k, v) :: d' => if String.eqb k key then Some v else dict_get key d'
  end.

(** [d[key] = v]: an existing key keeps its place, a new key goes last. *)
Fixpoint dict_set (key : string) (v : json) (d : list (string * json))
  : list (string * json) :=
  match d with
  | [] => [(key, v)]
  | (k, w) :: d' =>
      if String.eqb k key then (k, v) :: d' else (k, w) :: dict_set key v d'
  end.

Fixpoint mem_string (s : string) (l : list string) : bool :=
  match l with
  | [] => false
  | t :: l' => String.eqb t s || mem_string s l'
  end.

(** The keys of a dict in iteration order, shadowed bindings dropped. *)
Fixpoint dict_keys_from (seen : list string) (d : list (string * json))
  : list string :=
  match d with
  | [] => []
  | (k, _) :: d' =>
      if mem_string k seen then dict_keys_from seen d'
      else k :: dict_keys_from (k :: seen) d'
  end.

Definition dict_keys (d : list (string * json)) : list string :=
  dict_keys_from [] d.

(** Python truthiness, as used by [if x:] and [not x]. *)
Definition truthy (j : json) : bool :=
  match j with
  | JNull => false
  | JBool b => b
  | JInt z => negb (z =? 0)
  | JFloat q => negb (Qeq_bool q 0)
  | JStr s => negb (String.eqb s "")
  | JList l => match l with [] => false | _ => true end
  | JDict d => match d with [] => false | _ => true end
  end.

(** Numbers compare by value across [bool], [int] and [float]. *)
Definition num_of (j : json) : option Q :=
  match j with
  | JBool b => Some (if b then 1%Q else 0%Q)
  | JInt z => Some (inject_Z z)
  | JFloat q => Some q
  | _ => None
  end.

(** Python [==] on JSON values. *)
Fixpoint py_eq (a b : json) {struct a} : bool :=
  match a, b with
  | JNull, JNull => true
  | JStr s, JStr t => String.eqb s t
  | JList l, JList m =>
      (fix go (l m : list json) {struct l} : bool :=
         match l, m with
         | [], [] => true
         | x :: l', y :: m' => py_eq x y && go l' m'
         | _, _ => false
         end) l m
  | JDict d, JDict e =>
      (fix go (seen : list string) (d : list (string * json)) {struct d} : bool :=
         match d with
         | [] => true
         | (k, v) :: d' =>
             if mem_string k seen then go seen d'
             else match dict_get k e with
                  | Some w => py_eq v w && go (k :: seen) d'
                  | None => false
                  end
         end) [] d
      && (List.length (dict_keys e) =? List.length (dict_keys d))%nat
  | _, _ =>
      match num_of a, num_of b with
      | Some p, Some q => Qeq_bool p q
      | _, _ => false
      end
  end.

(** [x.get(key, default)]: only a dict has the method. *)
Definition py_get (x : json) (key : string) (default : json) : result json :=
  match x with
  | JDict d =>
      Ok (match dict_get key d with Some v => v | None => default end)
  | _ => Raise AttributeError
  end.

Fixpoint chars_of (s : string) : list json :=
  match s with
  | EmptyString => []
  | String c s' => JStr (String c EmptyString) :: chars_of s'
  end.

(** [for item in x]: the items a loop over [x] visits. *)
Definition py_iter (x : json) : result (list json) :=
  match x with
  | JList l => Ok l
  | JDict d => Ok (map JStr (dict_keys d))
  | JStr s => Ok (chars_of s)
  | _ => Raise TypeError
  end.

(** [len(x)] *)
Definition py_len (x : json) : result Z :=
  match x with
  | JList l => Ok (Z.of_nat (List.length l))
  | JDict d => Ok (Z.of_nat (List.length (dict_keys d)))
  | JStr s => Ok (Z.of_nat (String.length s))
  | _ => Raise TypeError
  end.

(** ** The sibling library's objects *)

Record zone := {
  zone_id : Z;
  get_name : string;
  (** the [_zone_json] attribute; [None] when the attribute is absent *)
  _zone_json : option json;
  (** outcome of [await zone.load_current_sensor_state()] *)
  load_current_sensor_state : result unit
}.

Record thermostat := {
  thermostat_id : Z;
  get_zone_ids : result (list Z);
  get_zone_by_id : Z -> result zone
}.

Record NexiaHome := {
  get_thermostat_ids : result (list Z);
  get_thermostat_by_id : Z -> result thermostat
}.

(** ** Entities *)

Inductive sensor_type := temperature | humidity | battery | weight.

Record NexiaRoomIQSensor := {
  _coordinator : Z;
  _zone : Z;
  _thermostat : Z;
  _sensor_id : json;
  _sensor_name : json;
  _sensor_type : sensor_type
}.

Definition sensor_type_eqb (a b : sensor_type) : bool :=
  match a, b with
  | temperature, temperature | humidity, humidity
  | battery, battery | weight, weight => true
  | _, _ => false
  end.

(** [getattr(zone, "_zone_json", None)] *)
Definition getattr_zone_json (z : zone) : json :=
  match _zone_json z with
  | Some j => j
  | None => JNull
  end.

Definition is_none (j : json) : bool :=
  match j with JNull => true | _ => false end.

(** A [try] block that updates a shared object step by step: the steps run
    in order, and the first exception abandons the rest while the object keeps
    what the earlier steps did to it. *)
Fixpoint run_steps {S : Type} (steps : list (S -> result S)) (s : S) : S :=
  match steps with
  | [] => s
  | step :: rest =>
      match step s with
      | Ok s' => run_steps rest s'
      | Raise _ => s
      end
  end.

Section CreateRoomIQSensors.
Variable coordinator : Z.
Variable zn : zone.
Variable th : thermostat.

Definition new_sensor (sensor_id sensor_name : json) (ty : sensor_type)
  : NexiaRoomIQSensor :=
  {| _coordinator := coordinator;
     _zone := zone_id zn;
     _thermostat := thermostat_id th;
     _sensor_id := sensor_id;
     _sensor_name := sensor_name;
     _sensor_type := ty |}.

(** The first feature named ["room_iq_sensors"]: the loop of lines 190-193,
    which stops at the first match and raises on a feature without [get]. *)
Fixpoint find_room_iq_feature (features : list json) : result json :=
  match features with
  | [] => Ok JNull
  | feature :: rest =>
      (name <- py_get feature "name" JNull ;;
       if py_eq name (JStr "room_iq_sensors") then Ok feature
       else find_room_iq_feature rest)%res
  end.

(** Lines 215-216 *)
Definition id_and_name (sensor_data : json) : result (json * json) :=
  (sensor_id <- py_get sensor_data "id" JNull ;;
   sensor_name <- py_get sensor_data "name" JNull ;;
   Ok (sensor_id, sensor_name))%res.

(** Lines 228-299: the four appends to the shared list. *)
Definition append_steps (sensor_data sensor_id sensor_name : json)
  : list (list NexiaRoomIQSensor -> result (list NexiaRoomIQSensor)) :=
  [ (fun entities =>
       temperature_valid <- py_get sensor_data "temperature_valid" (JBool false) ;;
       Ok (if truthy temperature_valid
           then entities ++ [new_sensor sensor_id sensor_name temperature]
           else entities))%res;
    (fun entities =>
       humidity_valid <- py_get sensor_data "humidity_valid" (JBool false) ;;
       Ok (if truthy humidity_valid
           then entities ++ [new_sensor sensor_id sensor_name humidity]
           else entities))%res;
    (fun entities =>
       has_battery <- py_get sensor_data "has_battery" (JBool false) ;;
       both <-
         (if truthy has_battery
          then py_get sensor_data "battery_valid" (JBool false)
          else Ok has_battery) ;;
       Ok (if truthy both
           then entities ++ [new_sensor sensor_id sensor_name battery]
           else entities))%res;
    (fun entities =>
       Ok (entities ++ [new_sensor sensor_id sensor_name weight])) ].

(** One iteration of the loop over the records, with its own [try]
    (lines 214-307): an exception is logged and the loop goes on. *)
Definition sensor_body (entities : list NexiaRoomIQSensor) (sensor_data : json)
  : list NexiaRoomIQSensor :=
  match id_and_name sensor_data with
  | Raise _ => entities
  | Ok (sensor_id, sensor_name) =>
      if negb (truthy sensor_id) || negb (truthy sensor_name) then entities
      else run_steps (append_steps sensor_data sensor_id sensor_name) entities
  end.

Definition sensor_loop (entities : list NexiaRoomIQSensor) (sensors : list json)
  : list NexiaRoomIQSensor :=
  fold_left sensor_body sensors entities.

(** Lines 178-307, the body of the outer [try]. *)
Definition create_body : result (list NexiaRoomIQSensor) :=
  (let zone_data := getattr_zone_json zn in
   if is_none zone_data then Ok []
   else
     features <- py_get zone_data "features" (JList []) ;;
     features <- py_iter features ;;
     room_iq_feature <- find_room_iq_feature features ;;
     if negb (truthy room_iq_feature) then Ok []
     else
       sensors <- py_get room_iq_feature "sensors" (JList []) ;;
       if negb (truthy sensors) then Ok []
       else
         _ <- py_len sensors ;;
         items <- py_iter sensors ;;
         Ok (sensor_loop [] items))%res.

(** [_create_roomiq_sensors(coordinator, zone, thermostat)].  The outer
    handler logs and falls through to [return entities]; nothing has been
    appended when an exception reaches it, since the loop over the records
    handles its own. *)
Definition _create_roomiq_sensors : result (list NexiaRoomIQSensor) :=
  Res.try_except create_body (fun _ => Ok []).
End CreateRoomIQSensors.

(** ** The entity's properties

    A property reads the entity and the objects it refers to; these make up
    the state the accessor is run in. *)

Record entity_state := {
  self : NexiaRoomIQSensor;
  (** the zone object behind [self._zone] *)
  self_zone : zone;
  (** what [super().available] answers *)
  super_available : bool
}.

Definition Acc (A : Type) : Type := entity_state -> A * entity_state.

Module AccM.
Definition ret {A} (a : A) : Acc A := fun s => (a, s).
Definition bind {A B} (m : Acc A) (k : A -> Acc B) : Acc B :=
  fun s => let (a, s') := m s in k a s'.
Definition gets {A} (f : entity_state -> A) : Acc A := fun s => (f s, s).
Definition put (s' : entity_state) : Acc unit := fun _ => (tt, s').
End AccM.

Declare Scope acc_scope.
Delimit Scope acc_scope with acc.
Notation "x <- m ;; k" := (AccM.bind m (fun x => k))
  (at level 61, m at next level, right associativity) : acc_scope.

(** The inner loop of [_get_sensor_data] (lines 406-408). *)
Fixpoint find_sensor (sensor_id : json) (sensors : list json)
  : result (option json) :=
  match sensors with
  | [] => Ok None
  | sensor :: rest =>
      (id <- py_get sensor "id" JNull ;;
       if py_eq id sensor_id then Ok (Some sensor)
       else find_sensor sensor_id rest)%res
  end.

(** The outer loop (lines 403-408): every feature of that name is searched,
    the first matching record is returned. *)
Fixpoint scan_features (sensor_id : json) (features : list json)
  : result (option json) :=
  match features with
  | [] => Ok None
  | feature :: rest =>
      (name <- py_get feature "name" JNull ;;
       if py_eq name (JStr "room_iq_sensors") then
         sensors <- py_get feature "sensors" (JList []) ;;
         items <- py_iter sensors ;;
         found <- find_sensor sensor_id items ;;
         match found with
         | Some sensor => Ok (Some sensor)
         | None => scan_features sensor_id rest
         end
       else scan_features sensor_id rest)%res
  end.

Definition get_sensor_data_body (zone_data sensor_id : json)
  : result (option json) :=
  (if is_none zone_data then Ok None
   else
     features <- py_get zone_data "features" (JList []) ;;
     features <- py_iter features ;;
     scan_features sensor_id features)%res.

(** [self._get_sensor_data()]; [None] is Python's [None]. *)
Definition _get_sensor_data : Acc (option json) :=
  (zone_data <- AccM.gets (fun s => getattr_zone_json (self_zone s)) ;;
   sensor_id <- AccM.gets (fun s => _sensor_id (self s)) ;;
   AccM.ret (match get_sensor_data_body zone_data sensor_id with
             | Ok found => found
             | Raise _ => None
             end))%acc.

Definition native_value_body (ty : sensor_type) (sensor_data : json)
  : result json :=
  match ty with
  | temperature =>
      (valid <- py_get sensor_data "temperature_valid" (JBool false) ;;
       if truthy valid then py_get sensor_data "temperature" JNull
       else Ok JNull)%res
  | humidity =>
      (valid <- py_get sensor_data "humidity_valid" (JBool false) ;;
       if truthy valid then py_get sensor_data "humidity" JNull
       else Ok JNull)%res
  | battery =>
      (valid <- py_get sensor_data "battery_valid" (JBool false) ;;
       if truthy valid then py_get sensor_data "battery_level" JNull
       else Ok JNull)%res
  | weight => py_get sensor_data "weight" (JFloat 0)
  end.

(** The [native_value] property. *)
Definition native_value : Acc json :=
  (sensor_data <- _get_sensor_data ;;
   match sensor_data with
   | None => AccM.ret JNull
   | Some sensor_data =>
       ty <- AccM.gets (fun s => _sensor_type (self s)) ;;
       AccM.ret (match native_value_body ty sensor_data with
                 | Ok v => v
                 | Raise _ => JNull
                 end)
   end)%acc.

Definition attrs_steps (sensor_id sensor_name : json) (ty : sensor_type)
    (sensor_data : json)
  : list (list (string * json) -> result (list (string * json))) :=
  [ (fun attrs => Ok (dict_set "sensor_id" sensor_id attrs));
    (fun attrs => Ok (dict_set "sensor_name" sensor_name attrs));
    (fun attrs =>
       v <- py_get sensor_data "type" JNull ;;
       Ok (dict_set "sensor_type" v attrs))%res;
    (fun attrs =>
       v <- py_get sensor_data "serial_number" JNull ;;
       Ok (dict_set "serial_number" v attrs))%res;
    (fun attrs =>
       v <- py_get sensor_data "weight" (JFloat 0) ;;
       Ok (dict_set "weight" v attrs))%res;
    (fun attrs =>
       has_online <- py_get sensor_data "has_online" (JBool false) ;;
       if truthy has_online then
         v <- py_get sensor_data "connected" (JBool false) ;;
         Ok (dict_set "connected" v attrs)
       else Ok attrs)%res;
    (fun attrs =>
       has_battery <- py_get sensor_data "has_battery" (JBool false) ;;
       if truthy has_battery then
         battery_valid <- py_get sensor_data "battery_valid" (JBool false) ;;
         if truthy battery_valid then
           level <- py_get sensor_data "battery_level" JNull ;;
           let attrs := dict_set "battery_level" level attrs in
           low <- py_get sensor_data "battery_low" (JBool false) ;;
           Ok (dict_set "battery_low" low attrs)
         else Ok attrs
       else Ok attrs)%res;
    (fun attrs =>
       if negb (sensor_type_eqb ty battery) then
         temperature_valid <- py_get sensor_data "temperature_valid" (JBool false) ;;
         attrs <-
           (if truthy temperature_valid then
              v <- py_get sensor_data "temperature" JNull ;;
              Ok (dict_set "temperature" v attrs)
            else Ok attrs) ;;
         humidity_valid <- py_get sensor_data "humidity_valid" (JBool false) ;;
         if truthy humidity_valid then
           v <- py_get sensor_data "humidity" JNull ;;
           Ok (dict_set "humidity" v attrs)
         else Ok attrs
       else Ok attrs)%res ].

(** The [extra_state_attributes] property; the result is the dict [attrs]. *)
Definition extra_state_attributes : Acc json :=
  (sensor_data <- _get_sensor_data ;;
   match sensor_data with
   | None => AccM.ret (JDict [])
   | Some sensor_data =>
       sensor_id <- AccM.gets (fun s => _sensor_id (self s)) ;;
       sensor_name <- AccM.gets (fun s => _sensor_name (self s)) ;;
       ty <- AccM.gets (fun s => _sensor_type (self s)) ;;
       AccM.ret
         (JDict (run_steps (attrs_steps sensor_id sensor_name ty sensor_data) []))
   end)%acc.

(** Lines 511-521, the guarded part of [available]. *)
Definition validity (ty : sensor_type) (sensor_data : json) : result json :=
  match ty with
  | temperature => py_get sensor_data "temperature_valid" (JBool false)
  | humidity => py_get sensor_data "humidity_valid" (JBool false)
  | battery =>
      (battery_valid <- py_get sensor_data "battery_valid" (JBool false) ;;
       if truthy battery_valid
       then py_get sensor_data "has_battery" (JBool false)
       else Ok battery_valid)%res
  | weight => Ok (JBool false)
  end.

(** Lines 501-523 on a record that was found.  The connectivity check is
    outside the [try]. *)
Definition available_body (ty : sensor_type) (sensor_data : json)
  : result json :=
  (has_online <- py_get sensor_data "has_online" (JBool false) ;;
   connected <-
     (if truthy has_online
      then py_get sensor_data "connected" (JBool false)
      else Ok (JBool true)) ;;
   if negb (truthy connected) then Ok (JBool false)
   else if sensor_type_eqb ty weight then Ok (JBool true)
   else Res.try_except (validity ty sensor_data) (fun _ => Ok (JBool false)))%res.

(** The [available] property. *)
Definition available : Acc (result json) :=
  (parent <- AccM.gets super_available ;;
   if negb parent then AccM.ret (Ok (JBool false))
   else
     sensor_data <- _get_sensor_data ;;
     match sensor_data with
     | None => AccM.ret (Ok (JBool false))
     | Some sensor_data =>
         ty <- AccM.gets (fun s => _sensor_type (self s)) ;;
         AccM.ret (available_body ty sensor_data)
     end)%acc.

(** ** The running system: module globals, patched objects, observable calls *)

(** What the add-on does to the outside, in the order it happens. *)
Inductive event :=
| EvSleep (seconds : Q)
| EvLoadCurrentSensorState (zone_id : Z)
| EvOriginalSetup (entry_id : string)
| EvOriginalUpdate
| EvAddEntities (entities : list NexiaRoomIQSensor)
| EvReload (entry_id : string).

(** A value of the attribute [async_setup_entry]: the sibling's own function,
    whose outcome is the environment's, or the wrapper of lines 57-73. *)
Inductive setup_fn :=
| NexiaSetupEntry (run : list event -> result unit)
| SetupEntryWrapper.

(** A value of the attribute [_async_update_data]: the sibling's method or
    the closure of lines 107-145, which captures [nexia_home] and
    [coordinator]. *)
Inductive update_fn :=
| NexiaUpdateData (run : list event -> result json)
| UpdateWithRoomiqRefresh (coordinator_id : Z) (nexia_home : NexiaHome).

Record py_module := {
  (** [None]: the module has no such attribute *)
  async_setup_entry : option setup_fn;
  (** every other attribute *)
  module_dict : string -> option json
}.

Record coordinator_obj := {
  nexia_home : NexiaHome;
  _async_update_data : update_fn;
  (** every other attribute *)
  coordinator_dict : string -> option json
}.

Record ConfigEntry := {
  entry_id : string;
  title : string;
  (** [id()] of the coordinator; [None] when the attribute is not set *)
  runtime_data : option Z
}.

Record HomeAssistant := {
  (** [hass.config_entries.async_entries(domain)] *)
  async_entries : string -> result (list ConfigEntry);
  (** outcome of [await hass.config_entries.async_reload(entry_id)] *)
  async_reload : string -> result bool
}.

Record world := {
  (** globals of [sensor.py], lines 29-31 *)
  _original_async_setup_entry : option setup_fn;
  _original_update_method : Z -> option update_fn;
  _injection_complete : bool;
  (** the module [homeassistant.components.nexia.sensor] and the outcome of
      importing it (lines 32-33 of [__init__.py]) *)
  nexia_sensor : py_module;
  import_nexia_sensor : result unit;
  (** coordinator objects by [id()] *)
  heap : Z -> coordinator_obj;
  trace : list event
}.

Definition NEXIA_DOMAIN : string := "nexia".

Definition M (A : Type) : Type := world -> result A * world.

Module WM.
Definition ret {A} (a : A) : M A := fun w => (Ok a, w).
Definition raise {A} (e : exn) : M A := fun w => (Raise e, w).
Definition bind {A B} (m : M A) (k : A -> M B) : M B :=
  fun w =>
    match m w with
    | (Ok a, w') => k a w'
    | (Raise e, w') => (Raise e, w')
    end.
(** [try: m except Exception: h]; what [m] did before raising stays done. *)
Definition try_except {A} (m : M A) (h : exn -> M A) : M A :=
  fun w =>
    match m w with
    | (Ok a, w') => (Ok a, w')
    | (Raise e, w') => h e w'
    end.
Definition lift {A} (r : result A) : M A := fun w => (r, w).
Definition gets {A} (f : world -> A) : M A := fun w => (Ok (f w), w).
Definition modify (f : world -> world) : M unit := fun w => (Ok tt, f w).
End WM.

Declare Scope world_scope.
Delimit Scope world_scope with wm.
Notation "x <- m ;; k" := (WM.bind m (fun x => k))
  (at level 61, m at next level, right associativity) : world_scope.
Notation "m ;;; k" := (WM.bind m (fun _ => k))
  (at level 61, right associativity) : world_scope.

(** The world after some more observable calls. *)
Definition add_events (events : list event) (w : world) : world :=
  {| _original_async_setup_entry := _original_async_setup_entry w;
     _original_update_method := _original_update_method w;
     _injection_complete := _injection_complete w;
     nexia_sensor := nexia_sensor w;
     import_nexia_sensor := import_nexia_sensor w;
     heap := heap w;
     trace := trace w ++ events |}.

Definition emit (e : event) : M unit := WM.modify (add_events [e]).

(** [for x in xs: body(x)]; an exception leaves the loop. *)
Fixpoint for_each {A} (xs : list A) (body : A -> M unit) : M unit :=
  match xs with
  | [] => WM.ret tt
  | x :: rest => (body x ;;; for_each rest body)%wm
  end.

(** *** [inject_roomiq_sensors] *)

Definition set_injected (original : setup_fn) (w : world) : world :=
  {| _original_async_setup_entry := Some original;
     _original_update_method := _original_update_method w;
     _injection_complete := true;
     nexia_sensor :=
       {| async_setup_entry := Some SetupEntryWrapper;
          module_dict := module_dict (nexia_sensor w) |};
     import_nexia_sensor := import_nexia_sensor w;
     heap := heap w;
     trace := trace w |}.

(** [inject_roomiq_sensors(nexia_sensor_module)], the module being
    [nexia_sensor]. *)
Definition inject_roomiq_sensors : M unit :=
  (done <- WM.gets _injection_complete ;;
   if done then WM.ret tt
   else
     attr <- WM.gets (fun w => async_setup_entry (nexia_sensor w)) ;;
     match attr with
     | None => WM.raise AttributeError
     | Some original => WM.modify (set_injected original)
     end)%wm.

(** *** The patched data refresh *)

(** Lines 112-131: one request per zone, each with its own [try]. *)
Definition request_fresh_data (home : NexiaHome) : M unit :=
  (thermostat_ids <- WM.lift (get_thermostat_ids home) ;;
   for_each thermostat_ids (fun thermostat_id =>
     th <- WM.lift (get_thermostat_by_id home thermostat_id) ;;
     zone_ids <- WM.lift (get_zone_ids th) ;;
     for_each zone_ids (fun zid =>
       zn <- WM.lift (get_zone_by_id th zid) ;;
       WM.try_except
         (emit (EvLoadCurrentSensorState (zone_id zn)) ;;;
          WM.lift (load_current_sensor_state zn))
         (fun _ => WM.ret tt))))%wm.

(** Lines 110-139: the added phase, requests then the delay, inside one
    [try]. *)
Definition refresh_phase (home : NexiaHome) : M unit :=
  WM.try_except
    (request_fresh_data home ;;; emit (EvSleep 5))%wm
    (fun _ => WM.ret tt).

(** [_update_with_roomiq_refresh()], with [call] standing for the call of
    a function value. *)
Definition _update_with_roomiq_refresh (call : update_fn -> M json)
    (coordinator_id : Z) (home : NexiaHome) : M json :=
  (refresh_phase home ;;;
   saved <- WM.gets (fun w => _original_update_method w coordinator_id) ;;
   match saved with
   | None => WM.raise KeyError
   | Some original => call original
   end)%wm.

(** Calling an update method.  [depth] is the room left on Python's call
    stack: running out of it raises [RecursionError]. *)
Fixpoint call_update (depth : nat) (f : update_fn) : M json :=
  match depth with
  | O => WM.raise RecursionError
  | S depth' =>
      match f with
      | NexiaUpdateData run =>
          (history <- WM.gets trace ;;
           emit EvOriginalUpdate ;;;
           WM.lift (run history))%wm
      | UpdateWithRoomiqRefresh coordinator_id home =>
          _update_with_roomiq_refresh (call_update depth') coordinator_id home
      end
  end.

(** *** Entity set-up *)

Definition set_wrapped (cid : Z) (original : update_fn) (c : coordinator_obj)
    (w : world) : world :=
  {| _original_async_setup_entry := _original_async_setup_entry w;
     _original_update_method :=
       (fun k => if k =? cid then Some original else _original_update_method w k);
     _injection_complete := _injection_complete w;
     nexia_sensor := nexia_sensor w;
     import_nexia_sensor := import_nexia_sensor w;
     heap :=
       (fun k =>
          if k =? cid then
            {| nexia_home := nexia_home c;
               _async_update_data := UpdateWithRoomiqRefresh cid (nexia_home c);
               coordinator_dict := coordinator_dict c |}
          else heap w k);
     trace := trace w |}.

(** Lines 155-162: the entities of every zone of every thermostat. *)
Fixpoint zone_entities (cid : Z) (th : thermostat) (zone_ids : list Z)
    (entities : list NexiaRoomIQSensor) : result (list NexiaRoomIQSensor) :=
  match zone_ids with
  | [] => Ok entities
  | zid :: rest =>
      (zn <- get_zone_by_id th zid ;;
       created <- _create_roomiq_sensors cid zn th ;;
       zone_entities cid th rest (entities ++ created))%res
  end.

Fixpoint thermostat_entities (cid : Z) (home : NexiaHome)
    (thermostat_ids : list Z) (entities : list NexiaRoomIQSensor)
  : result (list NexiaRoomIQSensor) :=
  match thermostat_ids with
  | [] => Ok entities
  | tid :: rest =>
      (th <- get_thermostat_by_id home tid ;;
       zone_ids <- get_zone_ids th ;;
       entities <- zone_entities cid th zone_ids entities ;;
       thermostat_entities cid home rest entities)%res
  end.

(** [async_setup_roomiq_sensors(hass, config_entry, async_add_entities)] *)
Definition async_setup_roomiq_sensors (config_entry : ConfigEntry) : M unit :=
  match runtime_data config_entry with
  | None => WM.ret tt
  | Some cid =>
      (coordinator <- WM.gets (fun w => heap w cid) ;;
       let home := nexia_home coordinator in
       saved <- WM.gets (fun w => _original_update_method w cid) ;;
       match saved with
       | None =>
           WM.modify (set_wrapped cid (_async_update_data coordinator) coordinator)
       | Some _ => WM.ret tt
       end ;;;
       thermostat_ids <- WM.lift (get_thermostat_ids home) ;;
       entities <- WM.lift (thermostat_entities cid home thermostat_ids []) ;;
       emit (EvAddEntities entities))%wm
  end.

(** [_async_setup_entry_wrapper(hass, config_entry, async_add_entities)],
    with [call] standing for the call of a function value. *)
Definition _async_setup_entry_wrapper (call : setup_fn -> M unit)
    (config_entry : ConfigEntry) : M unit :=
  (original <- WM.gets _original_async_setup_entry ;;
   match original with
   | Some f => call f
   | None => WM.ret tt
   end ;;;
   emit (EvSleep 0.5) ;;;
   async_setup_roomiq_sensors config_entry)%wm.

(** Calling a set-up function on an entry. *)
Fixpoint call_setup (depth : nat) (f : setup_fn) (config_entry : ConfigEntry)
  : M unit :=
  match depth with
  | O => WM.raise RecursionError
  | S depth' =>
      match f with
      | NexiaSetupEntry run =>
          (history <- WM.gets trace ;;
           emit (EvOriginalSetup (entry_id config_entry)) ;;;
           WM.lift (run history))%wm
      | SetupEntryWrapper =>
          _async_setup_entry_wrapper
            (fun g => call_setup depth' g config_entry) config_entry
      end
  end.

(** *** The start-up hook of [__init__.py] *)

Definition is_empty {A} (l : list A) : bool :=
  match l with [] => true | _ => false end.

(** Lines 24-43, the body of the [try]. *)
Definition setup_body (hass : HomeAssistant) : M bool :=
  (nexia_entries <- WM.lift (async_entries hass NEXIA_DOMAIN) ;;
   if is_empty nexia_entries then WM.ret false
   else
     imported <- WM.gets import_nexia_sensor ;;
     WM.lift imported ;;;
     inject_roomiq_sensors ;;;
     for_each nexia_entries (fun entry =>
       emit (EvReload (entry_id entry)) ;;;
       _ <- WM.lift (async_reload hass (entry_id entry)) ;;
       WM.ret tt) ;;;
     WM.ret true)%wm.

(** [async_setup(hass, config)] *)
Definition async_setup (hass : HomeAssistant) : M bool :=
  (emit (EvSleep 3) ;;;
   WM.try_except (setup_body hass) (fun _ => WM.ret false))%wm.

(** * Specification-level definitions and sample data *)

(** A flag of a record: the truth value of [record.get(key, False)]. *)
Definition flag (record : list (string * json)) (key : string) : bool :=
  truthy (match dict_get key record with Some v => v | None => JBool false end).

Definition field (record : list (string * json)) (key : string) : json :=
  match dict_get key record with Some v => v | None => JNull end.

(** The entities one record stands for, in the words of the specification:
    nothing unless the record is an object with a truthy id and name; then
    temperature, humidity and battery entities as the flags say, and a
    weight entity. *)
Definition record_entities (coordinator : Z) (zn : zone) (th : thermostat)
    (record : json) : list NexiaRoomIQSensor :=
  match record with
  | JDict r =>
      let sensor := new_sensor coordinator zn th (field r "id") (field r "name") in
      if truthy (field r "id") && truthy (field r "name") then
        (if flag r "temperature_valid" then [sensor temperature] else []) ++
        (if flag r "humidity_valid" then [sensor humidity] else []) ++
        (if flag r "has_battery" && flag r "battery_valid"
         then [sensor battery] else []) ++
        [sensor weight]
      else []
  | _ => []
  end.

(** A feature object that carries the name ["room_iq_sensors"]. *)
Definition is_room_iq_feature (feature : json) : bool :=
  match feature with
  | JDict f => py_eq (field f "name") (JStr "room_iq_sensors")
  | _ => false
  end.

(** A feature object of another name. *)
Definition is_other_feature (feature : json) : bool :=
  match feature with
  | JDict f => negb (py_eq (field f "name") (JStr "room_iq_sensors"))
  | _ => false
  end.

(** The items of the ["features"] entry of a zone's JSON, as the loops of
    the source visit them. *)
Definition zone_features (zn : zone) : list json :=
  match getattr_zone_json zn with
  | JDict blob =>
      match py_iter (match dict_get "features" blob with
                     | Some x => x
                     | None => JList []
                     end) with
      | Ok items => items
      | Raise _ => []
      end
  | _ => []
  end.

(** Sample data: a zone with two Room IQ sensors, and variations of it. *)
Module Sample.
Definition den : json :=
  JDict [("id", JInt 11); ("name", JStr "Den");
         ("temperature", JInt 71); ("temperature_valid", JBool true);
         ("humidity", JInt 40); ("humidity_valid", JBool false);
         ("has_battery", JBool true); ("battery_valid", JBool true);
         ("battery_level", JInt 90);
         ("has_online", JBool true); ("connected", JBool true);
         ("weight", JFloat 0.5)].

Definition hall : json :=
  JDict [("id", JInt 12); ("name", JStr "Hall")].

(** A wireless sensor that has lost its connection. *)
Definition attic : json :=
  JDict [("id", JInt 13); ("name", JStr "Attic");
         ("temperature", JInt 80); ("temperature_valid", JBool true);
         ("has_online", JBool true); ("connected", JBool false)].

Definition room_iq (sensors : list json) : json :=
  JDict [("name", JStr "room_iq_sensors"); ("sensors", JList sensors)].

Definition zone_of (features : list json) : zone :=
  {| zone_id := 7;
     get_name := "Downstairs";
     _zone_json := Some (JDict [("name", JStr "Downstairs");
                                ("features", JList features)]);
     load_current_sensor_state := Ok tt |}.

Definition a_thermostat (zones : list zone) : thermostat :=
  {| thermostat_id := 3;
     get_zone_ids := Ok (map zone_id zones);
     get_zone_by_id := fun zid =>
       match find (fun z => zone_id z =? zid) zones with
       | Some z => Ok z
       | None => Raise KeyError
       end |}.

Definition a_home (zones : list zone) : NexiaHome :=
  {| get_thermostat_ids := Ok [3];
     get_thermostat_by_id := fun tid =>
       if tid =? 3 then Ok (a_thermostat zones) else Raise KeyError |}.

Definition thermostat_mode : json :=
  JDict [("name", JStr "thermostat_mode"); ("value", JStr "AUTO")].

(** An entity of the given type for the sensor with the given id, attached
    to a zone that knows [den] and [hall]. *)
Definition entity_state_of (sensor_id : Z) (ty : sensor_type) (parent : bool)
  : entity_state :=
  {| self := {| _coordinator := 1; _zone := 7; _thermostat := 3;
                _sensor_id := JInt sensor_id; _sensor_name := JStr "Den";
                _sensor_type := ty |};
     self_zone := zone_of [thermostat_mode; room_iq [den; hall; attic]];
     super_available := parent |}.

(** A home whose thermostat cannot be looked up. *)
Definition broken_home : NexiaHome :=
  {| get_thermostat_ids := Ok [3];
     get_thermostat_by_id := fun _ => Raise KeyError |}.

Definition nexia_update : update_fn :=
  NexiaUpdateData (fun _ => Ok (JStr "fresh data")).

Definition nexia_setup : setup_fn :=
  NexiaSetupEntry (fun _ => Ok tt).

(** The system before the add-on has touched it: coordinator 1 serves a
    home with one zone. *)
Definition initial_world : world :=
  {| _original_async_setup_entry := None;
     _original_update_method := fun _ => None;
     _injection_complete := false;
     nexia_sensor := {| async_setup_entry := Some nexia_setup;
                        module_dict := fun _ => None |};
     import_nexia_sensor := Ok tt;
     heap := fun _ =>
       {| nexia_home := a_home [zone_of [room_iq [den; hall]]];
          _async_update_data := nexia_update;
          coordinator_dict := fun _ => None |};
     trace := [] |}.

(** The same system once the refresh of coordinator 1 has been wrapped. *)
Definition wrapped_world : world :=
  set_wrapped 1 nexia_update (heap initial_world 1) initial_world.

Definition entry : ConfigEntry :=
  {| entry_id := "entry-1"; title := "Home"; runtime_data := Some 1 |}.

Definition other_entry : ConfigEntry :=
  {| entry_id := "entry-2"; title := "Cabin"; runtime_data := Some 2 |}.

(** A platform with the given Nexia entries, where every reload succeeds. *)
Definition hass_with (entries : list ConfigEntry) : HomeAssistant :=
  {| async_entries := fun domain =>
       if String.eqb domain "nexia" then Ok entries else Ok [];
     async_reload := fun _ => Ok true |}.

End Sample.

(** The truth value an available entity of each type reports. *)
Definition validity_flag (ty : sensor_type) (r : list (string * json)) : bool :=
  match ty with
  | temperature => flag r "temperature_valid"
  | humidity => flag r "humidity_valid"
  | battery => flag r "battery_valid" && flag r "has_battery"
  | weight => true
  end.

(** The zones the request loop reaches, thermostat after thermostat, and the
    exception that ends the loop early, if any. *)
Fixpoint visit_zones (th : thermostat) (zone_ids : list Z)
  : list zone * option exn :=
  match zone_ids with
  | [] => ([], None)
  | zid :: rest =>
      match get_zone_by_id th zid with
      | Raise e => ([], Some e)
      | Ok zn => let (zones, stop) := visit_zones th rest in (zn :: zones, stop)
      end
  end.

Fixpoint visit_thermostats (home : NexiaHome) (thermostat_ids : list Z)
  : list zone * option exn :=
  match thermostat_ids with
  | [] => ([], None)
  | tid :: rest =>
      match get_thermostat_by_id home tid with
      | Raise e => ([], Some e)
      | Ok th =>
          match get_zone_ids th with
          | Raise e => ([], Some e)
          | Ok zone_ids =>
              match visit_zones th zone_ids with
              | (zones, Some e) => (zones, Some e)
              | (zones, None) =>
                  let (zones', stop) := visit_thermostats home rest in
                  (zones ++ zones', stop)
              end
          end
      end
  end.

Definition visit (home : NexiaHome) : list zone * option exn :=
  match get_thermostat_ids home with
  | Raise e => ([], Some e)
  | Ok thermostat_ids => visit_thermostats home thermostat_ids
  end.




Definition request_event (zn : zone) : event :=
  EvLoadCurrentSensorState (zone_id zn).

Definition outcome (stop : option exn) : result unit :=
  match stop with
  | None => Ok tt
  | Some e => Raise e
  end.

(** What the added phase of the refresh wrapper does: the requests, and the
    delay when the requests came to their end. *)
Definition phase_events (home : NexiaHome) : list event :=
  map request_event (fst (visit home))
  ++ match snd (visit home) with
     | None => [EvSleep 5]
     | Some _ => []
     end.

Definition is_original_update (e : event) : bool :=
  match e with EvOriginalUpdate => true | _ => false end.


Definition is_original_setup (e : event) : bool :=
  match e with EvOriginalSetup _ => true | _ => false end.

Definition is_add_entities (e : event) : bool :=
  match e with EvAddEntities _ => true | _ => false end.

(** The world in which [async_setup_roomiq_sensors] goes on after taking care
    of the coordinator's update method. *)
Definition wrap_coordinator (config_entry : ConfigEntry) (w : world) : world :=
  match runtime_data config_entry with
  | None => w
  | Some cid =>
      match _original_update_method w cid with
      | None => set_wrapped cid (_async_update_data (heap w cid)) (heap w cid) w
      | Some _ => w
      end
  end.

Fixpoint inject_times (n : nat) (w : world) : world :=
  match n with
  | O => w
  | S n' => inject_times n' (snd (inject_roomiq_sensors w))
  end.

Definition reload_event (entry : ConfigEntry) : event :=
  EvReload (entry_id entry).

Definition reload_ok (hass : HomeAssistant) (entry : ConfigEntry) : bool :=
  match async_reload hass (entry_id entry) with
  | Ok _ => true
  | Raise _ => false
  end.

(** ** Words for the look-up of a sensor's record *)

Definition is_object (j : json) : bool :=
  match j with JDict _ => true | _ => false end.

(** A record whose id equals the given one. *)
Definition has_id (sensor_id : json) (record : json) : bool :=
  match record with
  | JDict r => py_eq (field r "id") sensor_id
  | _ => false
  end.

(** The items of a feature's ["sensors"] entry. *)
Definition feature_records (feature : json) : result (list json) :=
  (sensors <- py_get feature "sensors" (JList []) ;;
   py_iter sensors)%res.

(** The records of all features named ["room_iq_sensors"], in order. *)
Definition room_iq_records (features : list json) : list json :=
  flat_map (fun feature =>
              if is_room_iq_feature feature then
                match feature_records feature with
                | Ok items => items
                | Raise _ => []
                end
              else []) features.

(** Features that are objects, the Room IQ ones holding objects only. *)
Definition well_formed_features (features : list json) : bool :=
  forallb (fun feature =>
             is_object feature
             && (if is_room_iq_feature feature then
                   match feature_records feature with
                   | Ok items => forallb is_object items
                   | Raise _ => false
                   end
                 else true)) features.

(** The reading an entity of each type stands for. *)
Definition reading (ty : sensor_type) (r : list (string * json)) : json :=
  match ty with
  | temperature => field r "temperature"
  | humidity => field r "humidity"
  | battery => field r "battery_level"
  | weight => match dict_get "weight" r with Some v => v | None => JFloat 0 end
  end.

(** The state in which a property of entity [e] of zone [zn] is read. *)
Definition entity_in (e : NexiaRoomIQSensor) (zn : zone) (parent : bool)
  : entity_state :=
  {| self := e; self_zone := zn; super_available := parent |}.

(** A sensor id that is an integer or a string, as the vendor sends them. *)
Definition plain_id (sensor_id : json) : bool :=
  match sensor_id with
  | JInt _ | JStr _ => true
  | _ => false
  end.

(** The id of a record, [None] when it has none. *)
Definition record_id (record : json) : json :=
  match record with
  | JDict r => field r "id"
  | _ => JNull
  end.

(** No id of the list equals (Python's [==]) an id further down the list. *)
Fixpoint ids_differ (ids : list json) : bool :=
  match ids with
  | [] => true
  | x :: rest => forallb (fun y => negb (py_eq x y)) rest && ids_differ rest
  end.

(** [record.get(key, False)] on a record that is an object. *)
Definition get_or_false (r : list (string * json)) (key : string) : json :=
  match dict_get key r with Some v => v | None => JBool false end.

(** ** Words for the set-up of the sensors and for the refresh *)





(** The entry set up [n] times in a row, whatever each run returns. *)
Fixpoint setup_times (n : nat) (config_entry : ConfigEntry) (w : world) : world :=
  match n with
  | O => w
  | S n' =>
      setup_times n' config_entry
        (snd (async_setup_roomiq_sensors config_entry w))
  end.

(** The same home, with other outcomes for the requests for fresh data. *)
Definition zone_with_request (g : zone -> result unit) (zn : zone) : zone :=
  {| zone_id := zone_id zn;
     get_name := get_name zn;
     _zone_json := _zone_json zn;
     load_current_sensor_state := g zn |}.

Definition thermostat_with_requests (g : zone -> result unit) (th : thermostat)
  : thermostat :=
  {| thermostat_id := thermostat_id th;
     get_zone_ids := get_zone_ids th;
     get_zone_by_id := fun zid =>
       (zn <- get_zone_by_id th zid ;; Ok (zone_with_request g zn))%res |}.

Definition home_with_requests (g : zone -> result unit) (home : NexiaHome)
  : NexiaHome :=
  {| get_thermostat_ids := get_thermostat_ids home;
     get_thermostat_by_id := fun tid =>
       (th <- get_thermostat_by_id home tid ;;
        Ok (thermostat_with_requests g th))%res |}.

(** More sample data: a second zone whose requests fail, and homes built
    from it. *)
Module Cases.
Definition downstairs : zone :=
  Sample.zone_of [Sample.room_iq [Sample.den; Sample.hall]].

Definition upstairs : zone :=
  {| zone_id := 8;
     get_name := "Upstairs";
     _zone_json :=
       Some (JDict [("features", JList [Sample.room_iq [Sample.attic]])]);
     load_current_sensor_state := Raise (OtherError "timeout") |}.

(** One thermostat with both zones. *)
Definition two_zone_home : NexiaHome :=
  Sample.a_home [downstairs; upstairs].


(** The system before the add-on has touched it, every coordinator serving
    the given home. *)
Definition world_of (home : NexiaHome) : world :=
  {| _original_async_setup_entry := None;
     _original_update_method := fun _ => None;
     _injection_complete := false;
     nexia_sensor := {| async_setup_entry := Some Sample.nexia_setup;
                        module_dict := fun _ => None |};
     import_nexia_sensor := Ok tt;
     heap := fun _ =>
       {| nexia_home := home;
          _async_update_data := Sample.nexia_update;
          coordinator_dict := fun _ => None |};
     trace := [] |}.

(** A platform whose sibling module cannot be imported is modelled by the
    world; this one lacks the set-up function instead. *)
Definition world_without_setup : world :=
  {| _original_async_setup_entry := None;
     _original_update_method := fun _ => None;
     _injection_complete := false;
     nexia_sensor := {| async_setup_entry := None;
                        module_dict := fun _ => None |};
     import_nexia_sensor := Ok tt;
     heap := heap (world_of two_zone_home);
     trace := [] |}.
(** An original update method whose answer is the number of observable
    calls made before it. *)
Definition counting_update : update_fn :=
  NexiaUpdateData (fun history => Ok (JInt (Z.of_nat (List.length history)))).
End Cases.

(** ** [_create_roomiq_sensors] with its calls into the sibling made explicit

    The function evaluates [zone.get_name()] for its log messages (lines 183,
    197, 204, 210 and, inside the outer handler, 312) and calls the entity's
    constructor, which runs the parent's constructor.  Here both are
    outcomes the environment supplies: [name_call] is the outcome of
    [zone.get_name()], [construct ty id name] that of
    [NexiaRoomIQSensor(coordinator, zone, thermostat, id, name, ty)].
    [_create_roomiq_sensors] above is the case where both return. *)

Section CreateInEnvironment.
Variable name_call : result string.
Variable construct : sensor_type -> json -> json -> result NexiaRoomIQSensor.
Variable zn : zone.

(** Evaluating [zone.get_name()] as the argument of a logger call. *)
Definition evaluate_name : result unit :=
  (_ <- name_call ;; Ok tt)%res.

(** Lines 228-299, each append constructing its entity first. *)
Definition append_steps_env (sensor_data sensor_id sensor_name : json)
  : list (list NexiaRoomIQSensor -> result (list NexiaRoomIQSensor)) :=
  [ (fun entities =>
       temperature_valid <- py_get sensor_data "temperature_valid" (JBool false) ;;
       if truthy temperature_valid then
         entity <- construct temperature sensor_id sensor_name ;;
         Ok (entities ++ [entity])
       else Ok entities)%res;
    (fun entities =>
       humidity_valid <- py_get sensor_data "humidity_valid" (JBool false) ;;
       if truthy humidity_valid then
         entity <- construct humidity sensor_id sensor_name ;;
         Ok (entities ++ [entity])
       else Ok entities)%res;
    (fun entities =>
       has_battery <- py_get sensor_data "has_battery" (JBool false) ;;
       both <-
         (if truthy has_battery
          then py_get sensor_data "battery_valid" (JBool false)
          else Ok has_battery) ;;
       if truthy both then
         entity <- construct battery sensor_id sensor_name ;;
         Ok (entities ++ [entity])
       else Ok entities)%res;
    (fun entities =>
       entity <- construct weight sensor_id sensor_name ;;
       Ok (entities ++ [entity]))%res ].

(** One iteration of the loop over the records, with its own [try]. *)
Definition sensor_body_env (entities : list NexiaRoomIQSensor)
    (sensor_data : json) : list NexiaRoomIQSensor :=
  match id_and_name sensor_data with
  | Raise _ => entities
  | Ok (sensor_id, sensor_name) =>
      if negb (truthy sensor_id) || negb (truthy sensor_name) then entities
      else run_steps (append_steps_env sensor_data sensor_id sensor_name) entities
  end.

Definition sensor_loop_env (entities : list NexiaRoomIQSensor)
    (sensors : list json) : list NexiaRoomIQSensor :=
  fold_left sensor_body_env sensors entities.

(** Lines 178-307, the body of the outer [try]. *)
Definition create_body_env : result (list NexiaRoomIQSensor) :=
  (let zone_data := getattr_zone_json zn in
   if is_none zone_data then evaluate_name ;;; Ok []
   else
     features <- py_get zone_data "features" (JList []) ;;
     features <- py_iter features ;;
     room_iq_feature <- find_room_iq_feature features ;;
     if negb (truthy room_iq_feature) then evaluate_name ;;; Ok []
     else
       sensors <- py_get room_iq_feature "sensors" (JList []) ;;
       if negb (truthy sensors) then evaluate_name ;;; Ok []
       else
         _ <- py_len sensors ;;
         evaluate_name ;;;
         items <- py_iter sensors ;;
         Ok (sensor_loop_env [] items))%res.

(** The whole function: the outer handler evaluates [zone.get_name()] for
    its warning before control reaches [return entities] (lines 309-317). *)
Definition _create_roomiq_sensors_env : result (list NexiaRoomIQSensor) :=
  Res.try_except create_body_env (fun _ => evaluate_name ;;; Ok [])%res.
End CreateInEnvironment.

(** The constructor that returns, for the given coordinator, zone and
    thermostat. *)
Definition construct_ok (coordinator : Z) (zn : zone) (th : thermostat)
    (ty : sensor_type) (sensor_id sensor_name : json)
  : result NexiaRoomIQSensor :=
  Ok (new_sensor coordinator zn th sensor_id sensor_name ty).

(** * Properties *)

(** ** Creation of the entities of a zone *)

Lemma sensor_body_spec coordinator zn th entities record :
  sensor_body coordinator zn th entities record
  = entities ++ record_entities coordinator zn th record.
Proof.
  destruct record as [| b | z | q | s | l | r]; simpl;
    try (now rewrite app_nil_r).
  unfold sensor_body, id_and_name, field, flag. simpl.
  destruct (truthy _ && truthy _) eqn:E.
  - apply andb_true_iff in E as [E1 E2]. rewrite E1, E2. simpl.
    destruct (truthy match dict_get "temperature_valid" r with
                     | Some v => v | None => JBool false end);
      destruct (truthy match dict_get "humidity_valid" r with
                       | Some v => v | None => JBool false end);
      destruct (truthy match dict_get "has_battery" r with
                       | Some v => v | None => JBool false end) eqn:HB;
      simpl; rewrite ?HB;
      destruct (truthy match dict_get "battery_valid" r with
                       | Some v => v | None => JBool false end);
      simpl; rewrite <- ?app_assoc; reflexivity.
  - apply andb_false_iff in E.
    destruct E as [E | E]; rewrite E; simpl;
      rewrite ?orb_true_r, app_nil_r; reflexivity.
Qed.

Lemma sensor_loop_spec coordinator zn th sensors : forall entities,
  sensor_loop coordinator zn th entities sensors
  = entities ++ flat_map (record_entities coordinator zn th) sensors.
Proof.
  unfold sensor_loop.
  induction sensors as [| record rest IH]; intros entities; simpl.
  - now rewrite app_nil_r.
  - rewrite IH, sensor_body_spec, <- app_assoc. reflexivity.
Qed.

Lemma find_skips_other_features pre : forall rest,
  forallb is_other_feature pre = true ->
  find_room_iq_feature (pre ++ rest) = find_room_iq_feature rest.
Proof.
  induction pre as [| feature pre IH]; intros rest H; simpl in *.
  - reflexivity.
  - apply andb_true_iff in H as [H1 H2].
    destruct feature; simpl in H1; try discriminate.
    simpl. unfold field in H1.
    destruct (py_eq _ _); simpl in H1; try discriminate.
    now apply IH.
Qed.

Lemma find_returns_feature features : forall found,
  find_room_iq_feature features = Ok found ->
  found = JNull \/ (In found features /\ is_room_iq_feature found = true).
Proof.
  induction features as [| feature rest IH]; intros found H; simpl in H.
  - inversion H. now left.
  - destruct feature; simpl in H; try discriminate.
    destruct (py_eq _ _) eqn:E.
    + inversion H; subst. right. split; [now left | exact E].
    + destruct (IH _ H) as [-> | [HI HF]]; [now left | right].
      split; [now right | exact HF].
Qed.

(** C1, as amended.  The source looks at the FIRST feature named
    ["room_iq_sensors"] and reaches it only if every feature before it is an
    object.  When that feature has a non-empty ["sensors"] list, the entities
    created are, record by record, those of [record_entities]: for a record
    with truthy id and name a temperature entity iff [temperature_valid], a
    humidity entity iff [humidity_valid], a battery entity iff [has_battery]
    and [battery_valid], and always a weight entity; no entity for a record
    without id or name.  A zone with no such feature, or without zone JSON,
    yields the empty list. *)
Theorem create_roomiq_sensors_entities coordinator zn th :
  (forall blob features pre f post sensors,
      _zone_json zn = Some (JDict blob) ->
      dict_get "features" blob = Some (JList features) ->
      features = pre ++ JDict f :: post ->
      forallb is_other_feature pre = true ->
      is_room_iq_feature (JDict f) = true ->
      dict_get "sensors" f = Some (JList sensors) ->
      sensors <> [] ->
      _create_roomiq_sensors coordinator zn th
      = Ok (flat_map (record_entities coordinator zn th) sensors))
  /\ (forallb (fun x => negb (is_room_iq_feature x)) (zone_features zn) = true ->
      _create_roomiq_sensors coordinator zn th = Ok [])
  /\ (getattr_zone_json zn = JNull ->
      _create_roomiq_sensors coordinator zn th = Ok []).
Proof.
  split; [| split].
  - intros blob features pre f post sensors HZ HF -> Hpre Hf HS Hne.
    unfold _create_roomiq_sensors, create_body, getattr_zone_json.
    rewrite HZ. simpl. rewrite HF. simpl.
    rewrite find_skips_other_features by exact Hpre.
    simpl in Hf. unfold field in Hf.
    destruct f as [| binding f']; [discriminate HS |].
    cbn [find_room_iq_feature py_get Res.bind]. rewrite Hf.
    cbn [truthy negb Res.bind py_get]. rewrite HS.
    destruct sensors as [| record rest]; [contradiction |].
    cbn [truthy negb Res.bind py_len py_iter Res.try_except].
    rewrite sensor_loop_spec. reflexivity.
  - intros H.
    unfold _create_roomiq_sensors, create_body.
    unfold zone_features in H.
    destruct (getattr_zone_json zn) as [| b | z | q | s | l | blob];
      try reflexivity.
    simpl.
    destruct (py_iter _) as [items | e]; simpl; [| reflexivity].
    destruct (find_room_iq_feature items) as [found | e] eqn:E; simpl;
      [| reflexivity].
    apply find_returns_feature in E as [-> | [HI HT]]; [reflexivity |].
    rewrite forallb_forall in H. apply H in HI. rewrite HT in HI. discriminate.
  - intros H. unfold _create_roomiq_sensors, create_body. rewrite H. reflexivity.
Qed.

Lemma create_roomiq_sensors_entities_witness :
  _create_roomiq_sensors 1
    (Sample.zone_of [Sample.thermostat_mode; Sample.room_iq [Sample.den; Sample.hall]])
    (Sample.a_thermostat [])
  = Ok [ {| _coordinator := 1; _zone := 7; _thermostat := 3;
            _sensor_id := JInt 11; _sensor_name := JStr "Den";
            _sensor_type := temperature |};
         {| _coordinator := 1; _zone := 7; _thermostat := 3;
            _sensor_id := JInt 11; _sensor_name := JStr "Den";
            _sensor_type := battery |};
         {| _coordinator := 1; _zone := 7; _thermostat := 3;
            _sensor_id := JInt 11; _sensor_name := JStr "Den";
            _sensor_type := weight |};
         {| _coordinator := 1; _zone := 7; _thermostat := 3;
            _sensor_id := JInt 12; _sensor_name := JStr "Hall";
            _sensor_type := weight |} ]
  /\ _create_roomiq_sensors 1 (Sample.zone_of [Sample.thermostat_mode])
       (Sample.a_thermostat []) = Ok []
  /\ _create_roomiq_sensors 1
       {| zone_id := 7; get_name := "Downstairs"; _zone_json := None;
          load_current_sensor_state := Ok tt |}
       (Sample.a_thermostat []) = Ok [].
Proof.
  split; [| split].
  - apply (proj1 (create_roomiq_sensors_entities 1
             (Sample.zone_of [Sample.thermostat_mode;
                              Sample.room_iq [Sample.den; Sample.hall]])
             (Sample.a_thermostat []))
           [("name", JStr "Downstairs");
            ("features", JList [Sample.thermostat_mode;
                                Sample.room_iq [Sample.den; Sample.hall]])]
           [Sample.thermostat_mode; Sample.room_iq [Sample.den; Sample.hall]]
           [Sample.thermostat_mode]
           [("name", JStr "room_iq_sensors");
            ("sensors", JList [Sample.den; Sample.hall])]
           []
           [Sample.den; Sample.hall]);
      try reflexivity.
    discriminate.
  - apply (proj1 (proj2 (create_roomiq_sensors_entities 1
             (Sample.zone_of [Sample.thermostat_mode])
             (Sample.a_thermostat [])))).
    reflexivity.
  - apply (proj2 (proj2 (create_roomiq_sensors_entities 1
             {| zone_id := 7; get_name := "Downstairs"; _zone_json := None;
                load_current_sensor_state := Ok tt |}
             (Sample.a_thermostat [])))).
    reflexivity.
Defined.

(** C1, as stated, fails: the second feature below is named
    ["room_iq_sensors"] and has a non-empty sensor list whose record has an id
    and a name, yet nothing is created, since the source stops at the first
    feature of that name. *)
Lemma create_roomiq_sensors_first_feature_only :
  let first := JDict [("name", JStr "room_iq_sensors")] in
  let second := Sample.room_iq [Sample.hall] in
  let zn := Sample.zone_of [first; second] in
  In second (zone_features zn)
  /\ is_room_iq_feature second = true
  /\ py_get second "sensors" (JList []) = Ok (JList [Sample.hall])
  /\ (truthy (JInt 12) && truthy (JStr "Hall") = true)
  /\ _create_roomiq_sensors 1 zn (Sample.a_thermostat []) = Ok [].
Proof.
  cbv zeta. repeat split.
  - right. left. reflexivity.
Qed.

(** ** Failures during entity creation *)

Lemma id_and_name_raises record e :
  id_and_name record = Raise e -> forall r, record <> JDict r.
Proof.
  intros H r ->. discriminate H.
Qed.

Lemma faulty_record_has_no_entities coordinator zn th record e :
  id_and_name record = Raise e -> record_entities coordinator zn th record = [].
Proof.
  intros H. destruct record; try reflexivity.
  now apply id_and_name_raises with (r := d) in H.
Qed.

Lemma sensor_body_env_ok coordinator zn th entities record :
  sensor_body_env (construct_ok coordinator zn th) entities record
  = sensor_body coordinator zn th entities record.
Proof.
  unfold sensor_body_env, sensor_body.
  destruct (id_and_name record) as [[sensor_id sensor_name] | e] eqn:E;
    [| reflexivity].
  destruct (negb (truthy sensor_id) || negb (truthy sensor_name));
    [reflexivity |].
  destruct record as [| | | | | | r]; try discriminate E.
  unfold append_steps_env, append_steps, construct_ok. simpl.
  destruct (truthy match dict_get "temperature_valid" r with
                   | Some v => v | None => JBool false end);
    destruct (truthy match dict_get "humidity_valid" r with
                     | Some v => v | None => JBool false end);
    destruct (truthy match dict_get "has_battery" r with
                     | Some v => v | None => JBool false end) eqn:HB;
    simpl; rewrite ?HB;
    destruct (truthy match dict_get "battery_valid" r with
                     | Some v => v | None => JBool false end);
    simpl; rewrite ?HB; reflexivity.
Qed.

Lemma sensor_loop_env_ok coordinator zn th sensors : forall entities,
  sensor_loop_env (construct_ok coordinator zn th) entities sensors
  = sensor_loop coordinator zn th entities sensors.
Proof.
  unfold sensor_loop_env, sensor_loop.
  induction sensors as [| record rest IH]; intros entities; simpl;
    [reflexivity |].
  now rewrite sensor_body_env_ok, IH.
Qed.

Lemma run_steps_extends (steps : list (list NexiaRoomIQSensor
                                       -> result (list NexiaRoomIQSensor))) :
  Forall (fun step => forall entities entities',
            step entities = Ok entities' ->
            exists added, entities' = entities ++ added) steps ->
  forall entities, exists added, run_steps steps entities = entities ++ added.
Proof.
  induction 1 as [| step rest Hstep _ IH]; intros entities; simpl.
  - exists []. now rewrite app_nil_r.
  - destruct (step entities) as [entities' |] eqn:E.
    + destruct (Hstep _ _ E) as [added1 ->].
      destruct (IH (entities ++ added1)) as [added2 ->].
      exists (added1 ++ added2). now rewrite app_assoc.
    + exists []. now rewrite app_nil_r.
Qed.

Lemma sensor_body_env_extends construct entities record :
  exists added,
    sensor_body_env construct entities record = entities ++ added
    /\ (forall e, id_and_name record = Raise e -> added = []).
Proof.
  unfold sensor_body_env.
  destruct (id_and_name record) as [[sensor_id sensor_name] | e] eqn:E.
  - destruct (negb (truthy sensor_id) || negb (truthy sensor_name)).
    + exists []. split; [now rewrite app_nil_r | discriminate].
    + destruct (run_steps_extends
                  (append_steps_env construct record sensor_id sensor_name))
        with (entities := entities) as [added H].
      * unfold append_steps_env.
        repeat (constructor;
                [intros l l' HS;
                 repeat match type of HS with
                   | Res.bind ?m _ = Ok _ =>
                       destruct m; simpl in HS; [| discriminate HS]
                   | (if ?c then _ else _) = Ok _ => destruct c
                   end;
                 inversion HS; subst;
                 first [now exists [] ; rewrite app_nil_r
                       | eexists; reflexivity] |]).
        constructor.
      * exists added. split; [exact H | discriminate].
  - exists []. split; [now rewrite app_nil_r | reflexivity].
Qed.

(** C5, as amended.  [_create_roomiq_sensors] contains every failure of its
    own work, provided [zone.get_name()], which it evaluates for its log
    messages and again inside its outer handler, returns.  Then it never
    raises, whatever the JSON and whatever the entity constructor does: an
    exception that reaches the outer handler (malformed zone JSON) gives the
    empty list; a faulty record is skipped, what was appended before stays,
    and the entities of the other records are still delivered.  When
    [zone.get_name()] raises, that exception leaves the function.
    [async_setup_roomiq_sensors] on an entry without a coordinator returns
    without adding anything. *)
Theorem creation_failures_are_contained coordinator zn th :
  (exists entities, _create_roomiq_sensors coordinator zn th = Ok entities)
  /\ (forall e, create_body coordinator zn th = Raise e ->
      _create_roomiq_sensors coordinator zn th = Ok [])
  /\ (forall entities pre record post e,
      id_and_name record = Raise e ->
      sensor_loop coordinator zn th entities (pre ++ record :: post)
      = sensor_loop coordinator zn th entities (pre ++ post))
  /\ (forall config_entry w,
      runtime_data config_entry = None ->
      async_setup_roomiq_sensors config_entry w = (Ok tt, w))
  /\ (forall name,
      _create_roomiq_sensors_env (Ok name) (construct_ok coordinator zn th) zn
      = _create_roomiq_sensors coordinator zn th)
  /\ (forall name construct,
      exists entities,
        _create_roomiq_sensors_env (Ok name) construct zn = Ok entities)
  /\ (forall name construct e,
      create_body_env (Ok name) construct zn = Raise e ->
      _create_roomiq_sensors_env (Ok name) construct zn = Ok [])
  /\ (forall construct e,
      _create_roomiq_sensors_env (Raise e) construct zn = Raise e)
  /\ (forall construct entities record,
      exists added,
        sensor_body_env construct entities record = entities ++ added
        /\ (forall e, id_and_name record = Raise e -> added = [])).
Proof.
  split; [| split; [| split; [| split; [| split; [| split; [| split; [| split]]]]]]].
  - unfold _create_roomiq_sensors.
    destruct (create_body coordinator zn th) as [entities | e]; simpl; eauto.
  - intros e H. unfold _create_roomiq_sensors. rewrite H. reflexivity.
  - intros entities pre record post e H.
    rewrite !sensor_loop_spec, !flat_map_app. simpl.
    now rewrite (faulty_record_has_no_entities _ _ _ _ _ H).
  - intros config_entry w H. unfold async_setup_roomiq_sensors.
    rewrite H. reflexivity.
  - intros name.
    unfold _create_roomiq_sensors_env, _create_roomiq_sensors,
      create_body_env, create_body, evaluate_name.
    destruct (is_none (getattr_zone_json zn)); [reflexivity |].
    destruct (py_get (getattr_zone_json zn) "features" (JList []))
      as [features |]; [| reflexivity].
    cbn [Res.bind].
    destruct (py_iter features) as [items |]; [| reflexivity].
    cbn [Res.bind].
    destruct (find_room_iq_feature items) as [feature |]; [| reflexivity].
    cbn [Res.bind].
    destruct (negb (truthy feature)); [reflexivity |].
    destruct (py_get feature "sensors" (JList [])) as [sensors |];
      [| reflexivity].
    cbn [Res.bind].
    destruct (negb (truthy sensors)); [reflexivity |].
    destruct (py_len sensors); [| reflexivity].
    cbn [Res.bind].
    destruct (py_iter sensors) as [records |]; [| reflexivity].
    cbn [Res.bind Res.try_except].
    now rewrite sensor_loop_env_ok.
  - intros name construct. unfold _create_roomiq_sensors_env.
    destruct (create_body_env (Ok name) construct zn) as [entities | e];
      simpl; eauto.
  - intros name construct e H. unfold _create_roomiq_sensors_env.
    rewrite H. reflexivity.
  - intros construct e.
    unfold _create_roomiq_sensors_env, create_body_env, evaluate_name.
    destruct (is_none (getattr_zone_json zn)); [reflexivity |].
    destruct (py_get (getattr_zone_json zn) "features" (JList []))
      as [features |]; [| reflexivity].
    cbn [Res.bind].
    destruct (py_iter features) as [items |]; [| reflexivity].
    cbn [Res.bind].
    destruct (find_room_iq_feature items) as [feature |]; [| reflexivity].
    cbn [Res.bind].
    destruct (negb (truthy feature)); [reflexivity |].
    destruct (py_get feature "sensors" (JList [])) as [sensors |];
      [| reflexivity].
    cbn [Res.bind].
    destruct (negb (truthy sensors)); [reflexivity |].
    destruct (py_len sensors); reflexivity.
  - intros construct entities record. apply sensor_body_env_extends.
Qed.

Lemma creation_failures_are_contained_witness :
  _create_roomiq_sensors 1
    {| zone_id := 7; get_name := "Downstairs";
       _zone_json := Some (JList [JInt 1]);
       load_current_sensor_state := Ok tt |}
    (Sample.a_thermostat []) = Ok []
  /\ sensor_loop 1 (Sample.zone_of []) (Sample.a_thermostat []) []
       ([Sample.den] ++ JInt 5 :: [Sample.hall])
     = sensor_loop 1 (Sample.zone_of []) (Sample.a_thermostat []) []
         ([Sample.den] ++ [Sample.hall])
  /\ _create_roomiq_sensors_env (Ok "Downstairs")
       (fun _ _ _ => Raise (OtherError "no device"))
       {| zone_id := 7; get_name := "Downstairs";
          _zone_json := Some (JList [JInt 1]);
          load_current_sensor_state := Ok tt |}
     = Ok [].
Proof.
  split; [| split].
  - apply (proj1 (proj2 (creation_failures_are_contained 1
             {| zone_id := 7; get_name := "Downstairs";
                _zone_json := Some (JList [JInt 1]);
                load_current_sensor_state := Ok tt |}
             (Sample.a_thermostat []))) AttributeError).
    reflexivity.
  - apply (proj1 (proj2 (proj2 (creation_failures_are_contained 1
             (Sample.zone_of []) (Sample.a_thermostat []))))
           [] [Sample.den] (JInt 5) [Sample.hall] AttributeError).
    reflexivity.
  - apply (proj1 (proj2 (proj2 (proj2 (proj2 (proj2 (proj2
             (creation_failures_are_contained 1
                {| zone_id := 7; get_name := "Downstairs";
                   _zone_json := Some (JList [JInt 1]);
                   load_current_sensor_state := Ok tt |}
                (Sample.a_thermostat []))))))))
           "Downstairs" (fun _ _ _ => Raise (OtherError "no device"))
           AttributeError).
    reflexivity.
Defined.

(** C5, as stated, fails: the first record below is faulty (it is not an
    object, so reading its id raises), and the result is not the empty
    list. *)
Lemma faulty_record_does_not_empty_the_result :
  let zn := Sample.zone_of [Sample.room_iq [JInt 5; Sample.hall]] in
  id_and_name (JInt 5) = Raise AttributeError
  /\ _create_roomiq_sensors 1 zn (Sample.a_thermostat [])
     = Ok [ {| _coordinator := 1; _zone := 7; _thermostat := 3;
               _sensor_id := JInt 12; _sensor_name := JStr "Hall";
               _sensor_type := weight |} ]
  /\ _create_roomiq_sensors 1 zn (Sample.a_thermostat []) <> Ok [].
Proof.
  cbv zeta. split; [reflexivity | split; [reflexivity | discriminate]].
Qed.

(** ** The entity's properties *)

Lemma find_sensor_is_object sensor_id sensors : forall found,
  find_sensor sensor_id sensors = Ok (Some found) ->
  exists r, found = JDict r.
Proof.
  induction sensors as [| sensor rest IH]; intros found H; simpl in H.
  - discriminate.
  - destruct sensor; simpl in H; try discriminate.
    destruct (py_eq _ _).
    + inversion H; subst. eauto.
    + now apply IH.
Qed.

Lemma scan_features_is_object sensor_id features : forall found,
  scan_features sensor_id features = Ok (Some found) ->
  exists r, found = JDict r.
Proof.
  induction features as [| feature rest IH]; intros found H; simpl in H.
  - discriminate.
  - destruct feature; simpl in H; try discriminate.
    destruct (py_eq _ _); [| now apply IH].
    destruct (py_iter _) as [items | e]; simpl in H; [| discriminate].
    destruct (find_sensor sensor_id items) as [[sensor |] | e] eqn:E;
      simpl in H; try discriminate.
    + inversion H; subst. eapply find_sensor_is_object; eassumption.
    + now apply IH.
Qed.

Lemma get_sensor_data_is_object st found :
  fst (_get_sensor_data st) = Some found -> exists r, found = JDict r.
Proof.
  unfold _get_sensor_data, AccM.bind, AccM.gets, AccM.ret. simpl.
  unfold get_sensor_data_body.
  destruct (is_none _); [discriminate |].
  destruct (py_get _ _ _) as [features | e]; simpl; [| discriminate].
  destruct (py_iter features) as [items | e]; simpl; [| discriminate].
  destruct (scan_features _ items) as [found' | e] eqn:E; [| discriminate].
  intros ->. eapply scan_features_is_object; eassumption.
Qed.

Lemma get_sensor_data_reads st : snd (_get_sensor_data st) = st.
Proof. reflexivity. Qed.

Lemma available_body_spec ty r :
  exists v,
    available_body ty (JDict r) = Ok v
    /\ truthy v
       = (negb (flag r "has_online") || flag r "connected") && validity_flag ty r.
Proof.
  unfold available_body, validity_flag, flag. simpl.
  destruct (truthy match dict_get "has_online" r with
                   | Some v => v | None => JBool false end); simpl.
  - destruct (truthy match dict_get "connected" r with
                     | Some v => v | None => JBool false end); simpl.
    + destruct ty; simpl; eauto.
      destruct (truthy match dict_get "battery_valid" r with
                       | Some v => v | None => JBool false end) eqn:E;
        simpl; eauto.
    + eauto.
  - destruct ty; simpl; eauto.
    destruct (truthy match dict_get "battery_valid" r with
                     | Some v => v | None => JBool false end) eqn:E;
      simpl; eauto.
Qed.

Lemma available_unfold st :
  fst (available st)
  = if negb (super_available st) then Ok (JBool false)
    else match fst (_get_sensor_data st) with
         | None => Ok (JBool false)
         | Some sensor_data => available_body (_sensor_type (self st)) sensor_data
         end.
Proof.
  unfold available, AccM.bind, AccM.gets, AccM.ret.
  destruct (super_available st); simpl; [| reflexivity].
  destruct (match get_sensor_data_body _ _ with
            | Ok found => found | Raise _ => None end); reflexivity.
Qed.




Lemma native_value_unfold st :
  fst (native_value st)
  = match fst (_get_sensor_data st) with
    | None => JNull
    | Some sensor_data =>
        match native_value_body (_sensor_type (self st)) sensor_data with
        | Ok v => v
        | Raise _ => JNull
        end
    end.
Proof.
  unfold native_value, AccM.bind, AccM.gets, AccM.ret. simpl.
  destruct (match get_sensor_data_body _ _ with
            | Ok found => found | Raise _ => None end); reflexivity.
Qed.

Lemma extra_state_attributes_unfold st :
  fst (extra_state_attributes st)
  = match fst (_get_sensor_data st) with
    | None => JDict []
    | Some sensor_data =>
        JDict (run_steps
                 (attrs_steps (_sensor_id (self st)) (_sensor_name (self st))
                    (_sensor_type (self st)) sensor_data) [])
    end.
Proof.
  unfold extra_state_attributes, AccM.bind, AccM.gets, AccM.ret. simpl.
  destruct (match get_sensor_data_body _ _ with
            | Ok found => found | Raise _ => None end); reflexivity.
Qed.

Lemma get_sensor_data_depends st st' :
  _zone_json (self_zone st') = _zone_json (self_zone st) ->
  _sensor_id (self st') = _sensor_id (self st) ->
  fst (_get_sensor_data st') = fst (_get_sensor_data st).
Proof.
  intros HZ HI.
  unfold _get_sensor_data, AccM.bind, AccM.gets, AccM.ret, getattr_zone_json.
  simpl. now rewrite HZ, HI.
Qed.

(** C7, as amended.  The three properties leave the state they read (the
    entity, its zone and the zone's JSON) as it was, so nothing a previous
    access did can show in a later one.  [native_value] and
    [extra_state_attributes] are functions of the zone's JSON and the
    entity's stored identity; [available] is a function of these and of the
    parent's [available]. *)
Theorem properties_read_only st :
  snd (native_value st) = st
  /\ snd (extra_state_attributes st) = st
  /\ snd (available st) = st
  /\ forall st',
      _zone_json (self_zone st') = _zone_json (self_zone st) ->
      _sensor_id (self st') = _sensor_id (self st) ->
      _sensor_name (self st') = _sensor_name (self st) ->
      _sensor_type (self st') = _sensor_type (self st) ->
      fst (native_value st') = fst (native_value st)
      /\ fst (extra_state_attributes st') = fst (extra_state_attributes st)
      /\ (super_available st' = super_available st ->
          fst (available st') = fst (available st)).
Proof.
  split; [| split; [| split]].
  - unfold native_value, AccM.bind, AccM.gets, AccM.ret. simpl.
    destruct (match get_sensor_data_body _ _ with
              | Ok found => found | Raise _ => None end); reflexivity.
  - unfold extra_state_attributes, AccM.bind, AccM.gets, AccM.ret. simpl.
    destruct (match get_sensor_data_body _ _ with
              | Ok found => found | Raise _ => None end); reflexivity.
  - unfold available, AccM.bind, AccM.gets, AccM.ret. simpl.
    destruct (super_available st); simpl; [| reflexivity].
    destruct (match get_sensor_data_body _ _ with
              | Ok found => found | Raise _ => None end); reflexivity.
  - intros st' HZ HI HN HT.
    pose proof (get_sensor_data_depends st st' HZ HI) as HD.
    rewrite !native_value_unfold, !extra_state_attributes_unfold,
      !available_unfold, HD, HI, HN, HT.
    repeat split. intros ->. reflexivity.
Qed.

Lemma properties_read_only_witness :
  let st := Sample.entity_state_of 11 temperature true in
  let st' :=
    {| self := {| _coordinator := 2; _zone := 8; _thermostat := 4;
                  _sensor_id := JInt 11; _sensor_name := JStr "Den";
                  _sensor_type := temperature |};
       self_zone := {| zone_id := 8; get_name := "Copy";
                       _zone_json := _zone_json (self_zone st);
                       load_current_sensor_state := Raise KeyError |};
       super_available := true |} in
  snd (native_value st) = st
  /\ fst (native_value st') = fst (native_value st)
  /\ fst (extra_state_attributes st') = fst (extra_state_attributes st)
  /\ fst (available st') = fst (available st)
  /\ fst (native_value st) = JInt 71.
Proof.
  cbv zeta.
  destruct (properties_read_only (Sample.entity_state_of 11 temperature true))
    as [H0 [_ [_ H]]].
  destruct (H {| self := {| _coordinator := 2; _zone := 8; _thermostat := 4;
                            _sensor_id := JInt 11; _sensor_name := JStr "Den";
                            _sensor_type := temperature |};
                 self_zone :=
                   {| zone_id := 8; get_name := "Copy";
                      _zone_json :=
                        _zone_json
                          (self_zone (Sample.entity_state_of 11 temperature true));
                      load_current_sensor_state := Raise KeyError |};
                 super_available := true |}
              eq_refl eq_refl eq_refl eq_refl) as [H1 [H2 H3]].
  split; [exact H0 |].
  split; [exact H1 |].
  split; [exact H2 |].
  split; [exact (H3 eq_refl) | reflexivity].
Defined.

(** C7, as stated, fails for [available]: the two states below have the same
    zone JSON and the same entity, and the answers differ. *)
Lemma available_depends_on_parent :
  let st := Sample.entity_state_of 11 temperature true in
  let st' := Sample.entity_state_of 11 temperature false in
  _zone_json (self_zone st') = _zone_json (self_zone st)
  /\ self st' = self st
  /\ fst (available st) = Ok (JBool true)
  /\ fst (available st') = Ok (JBool false).
Proof.
  cbv zeta. repeat split.
Qed.

(** ** The patched functions at work *)

Lemma add_events_nil w : add_events [] w = w.
Proof.
  destruct w. unfold add_events. simpl. now rewrite app_nil_r.
Qed.

Lemma add_events_app l1 l2 w :
  add_events l2 (add_events l1 w) = add_events (l1 ++ l2) w.
Proof.
  unfold add_events. simpl. now rewrite app_assoc.
Qed.




Lemma request_zones_spec th zone_ids : forall w,
  for_each zone_ids (fun zid =>
    zn <- WM.lift (get_zone_by_id th zid) ;;
    WM.try_except
      (emit (EvLoadCurrentSensorState (zone_id zn)) ;;;
       WM.lift (load_current_sensor_state zn))
      (fun _ => WM.ret tt))%wm w
  = (outcome (snd (visit_zones th zone_ids)),
     add_events (map request_event (fst (visit_zones th zone_ids))) w).
Proof.
  induction zone_ids as [| zid rest IH]; intros w; simpl.
  - now rewrite add_events_nil.
  - unfold WM.bind at 1. unfold WM.bind at 1. unfold WM.lift at 1.
    destruct (get_zone_by_id th zid) as [zn | e]; simpl.
    + unfold WM.try_except, WM.bind, emit, WM.modify, WM.lift, WM.ret.
      destruct (load_current_sensor_state zn) as [[] | e];
        rewrite IH; destruct (visit_zones th rest) as [zones stop]; simpl;
        rewrite add_events_app; reflexivity.
    + now rewrite add_events_nil.
Qed.

Lemma request_thermostats_spec home thermostat_ids : forall w,
  for_each thermostat_ids (fun thermostat_id =>
    th <- WM.lift (get_thermostat_by_id home thermostat_id) ;;
    zone_ids <- WM.lift (get_zone_ids th) ;;
    for_each zone_ids (fun zid =>
      zn <- WM.lift (get_zone_by_id th zid) ;;
      WM.try_except
        (emit (EvLoadCurrentSensorState (zone_id zn)) ;;;
         WM.lift (load_current_sensor_state zn))
        (fun _ => WM.ret tt)))%wm w
  = (outcome (snd (visit_thermostats home thermostat_ids)),
     add_events (map request_event (fst (visit_thermostats home thermostat_ids))) w).
Proof.
  induction thermostat_ids as [| tid rest IH]; intros w; simpl.
  - now rewrite add_events_nil.
  - unfold WM.bind at 1. unfold WM.bind at 1. unfold WM.lift at 1.
    destruct (get_thermostat_by_id home tid) as [th | e]; simpl;
      [| now rewrite add_events_nil].
    unfold WM.bind at 1. unfold WM.lift at 1.
    destruct (get_zone_ids th) as [zone_ids | e]; simpl;
      [| now rewrite add_events_nil].
    rewrite request_zones_spec.
    destruct (visit_zones th zone_ids) as [zones [e |]]; simpl; [reflexivity |].
    rewrite IH.
    destruct (visit_thermostats home rest) as [zones' stop]; simpl.
    now rewrite add_events_app, map_app.
Qed.

Lemma request_fresh_data_spec home w :
  request_fresh_data home w
  = (outcome (snd (visit home)),
     add_events (map request_event (fst (visit home))) w).
Proof.
  unfold request_fresh_data, visit.
  unfold WM.bind at 1. unfold WM.lift at 1.
  destruct (get_thermostat_ids home) as [ids | e]; simpl.
  - apply request_thermostats_spec.
  - now rewrite add_events_nil.
Qed.

(** The added phase never raises. *)
Lemma refresh_phase_spec home w :
  refresh_phase home w = (Ok tt, add_events (phase_events home) w).
Proof.
  unfold refresh_phase, WM.try_except, WM.bind, phase_events.
  rewrite request_fresh_data_spec.
  destruct (visit home) as [zones [e |]]; simpl.
  - now rewrite app_nil_r.
  - unfold emit, WM.modify. now rewrite add_events_app.
Qed.

(** The wrapper runs its added phase and then the saved original. *)
Lemma wrapper_then_original depth cid home original w :
  _original_update_method w cid = Some original ->
  call_update (S depth) (UpdateWithRoomiqRefresh cid home) w
  = call_update depth original (add_events (phase_events home) w).
Proof.
  intros H. simpl. unfold _update_with_roomiq_refresh.
  unfold WM.bind at 1. rewrite refresh_phase_spec.
  unfold WM.bind, WM.gets. simpl. now rewrite H.
Qed.

Lemma original_update_spec depth run w :
  call_update (S depth) (NexiaUpdateData run) w
  = (run (trace w), add_events [EvOriginalUpdate] w).
Proof. reflexivity. Qed.

Lemma no_original_in_requests zones :
  filter is_original_update (map request_event zones) = [].
Proof.
  induction zones as [| zn zones IH]; simpl; [reflexivity | exact IH].
Qed.

Lemma no_original_in_phase home :
  filter is_original_update (phase_events home) = [].
Proof.
  unfold phase_events. rewrite filter_app, no_original_in_requests.
  now destruct (snd (visit home)).
Qed.







(** C9, as amended.  The wrapped refresh returns what the original update
    method returns when it is called in the state the added phase has left,
    after the requests and the sleep, not in the state the wrapper was invoked
    in.  The added phase never raises, whatever the look-ups and requests do,
    and the original is then called, once; the outcome of that call is the
    outcome of the wrapper. *)
Theorem wrapper_returns_original_result depth cid home run w :
  _original_update_method w cid = Some (NexiaUpdateData run) ->
  exists w1,
    refresh_phase home w = (Ok tt, w1)
    /\ call_update (S (S depth)) (UpdateWithRoomiqRefresh cid home) w
       = call_update (S depth) (NexiaUpdateData run) w1
    /\ List.length
         (filter is_original_update
            (trace (snd (call_update (S (S depth))
                           (UpdateWithRoomiqRefresh cid home) w))))
       = S (List.length (filter is_original_update (trace w))).
Proof.
  intros H. exists (add_events (phase_events home) w).
  split; [apply refresh_phase_spec |].
  split; [now apply wrapper_then_original |].
  rewrite (wrapper_then_original _ _ _ _ _ H), original_update_spec. simpl.
  rewrite !filter_app, no_original_in_phase. simpl.
  rewrite !length_app. simpl. lia.
Qed.

Lemma wrapper_returns_original_result_witness :
  exists w1,
    refresh_phase Sample.broken_home Sample.wrapped_world = (Ok tt, w1)
    /\ call_update 2 (UpdateWithRoomiqRefresh 1 Sample.broken_home)
         Sample.wrapped_world
       = call_update 1 Sample.nexia_update w1
    /\ List.length
         (filter is_original_update
            (trace (snd (call_update 2
                           (UpdateWithRoomiqRefresh 1 Sample.broken_home)
                           Sample.wrapped_world))))
       = S (List.length (filter is_original_update (trace Sample.wrapped_world))).
Proof.
  exact (wrapper_returns_original_result 0 1 Sample.broken_home
           (fun _ => Ok (JStr "fresh data")) Sample.wrapped_world eq_refl).
Defined.

(** C9, as stated, fails: an original whose answer depends on what has
    happened so far answers differently after the added phase than in the
    state in which the wrapper was invoked. *)
Lemma wrapper_result_differs_on_same_state :
  let w := set_wrapped 1 Cases.counting_update (heap Sample.initial_world 1)
             Sample.initial_world in
  let home := nexia_home (heap Sample.initial_world 1) in
  fst (call_update 2 (UpdateWithRoomiqRefresh 1 home) w) = Ok (JInt 2)
  /\ fst (call_update 1 Cases.counting_update w) = Ok (JInt 0)
  /\ fst (call_update 2 (UpdateWithRoomiqRefresh 1 home) w)
     <> fst (call_update 1 Cases.counting_update w).
Proof.
  cbv zeta. split; [reflexivity | split; [reflexivity | discriminate]].
Qed.

(** Apart from wrapping the coordinator, the set-up of the Room IQ sensors
    does one thing at most: it hands entities to the platform. *)
Lemma setup_roomiq_sensors_world config_entry w :
  exists added,
    snd (async_setup_roomiq_sensors config_entry w)
    = add_events added (wrap_coordinator config_entry w)
    /\ forallb is_add_entities added = true.
Proof.
  unfold async_setup_roomiq_sensors, wrap_coordinator.
  destruct (runtime_data config_entry) as [cid |];
    [| exists []; now rewrite add_events_nil].
  unfold WM.bind, WM.gets, WM.modify, WM.ret, WM.lift, emit.
  destruct (_original_update_method w cid) as [saved |];
    (destruct (get_thermostat_ids (nexia_home (heap w cid))) as [ids | e];
     [| exists []; now rewrite add_events_nil]);
    (destruct (thermostat_entities _ _ _ _) as [entities | e];
     [| exists []; now rewrite add_events_nil]);
    exists [EvAddEntities entities]; split; reflexivity.
Qed.

Lemma wrap_coordinator_trace config_entry w :
  trace (wrap_coordinator config_entry w) = trace w.
Proof.
  unfold wrap_coordinator.
  destruct (runtime_data config_entry) as [cid |]; [| reflexivity].
  now destruct (_original_update_method w cid).
Qed.


(** The set-up wrapper calls the saved original first; if that raises, the
    wrapper stops there. *)
Lemma setup_wrapper_spec depth config_entry run w :
  _original_async_setup_entry w = Some (NexiaSetupEntry run) ->
  call_setup (S (S depth)) SetupEntryWrapper config_entry w
  = match run (trace w) with
    | Ok _ =>
        async_setup_roomiq_sensors config_entry
          (add_events [EvOriginalSetup (entry_id config_entry); EvSleep 0.5] w)
    | Raise e =>
        (Raise e, add_events [EvOriginalSetup (entry_id config_entry)] w)
    end.
Proof.
  intros H. simpl. unfold _async_setup_entry_wrapper.
  unfold WM.bind at 1. unfold WM.gets at 1. rewrite H.
  unfold WM.bind at 1. unfold WM.bind at 1. unfold WM.gets at 1.
  unfold WM.bind at 1. unfold emit at 1. unfold WM.modify at 1.
  unfold WM.lift at 1.
  destruct (run (trace w)) as [[] | e]; [| reflexivity].
  unfold WM.bind at 1. unfold emit, WM.modify.
  now rewrite add_events_app.
Qed.

Lemma no_setup_in_added added :
  forallb is_add_entities added = true ->
  filter is_original_setup added = [].
Proof.
  induction added as [| ev rest IH]; simpl; intros H; [reflexivity |].
  apply andb_true_iff in H as [H1 H2].
  destruct ev; simpl in *; try discriminate. now apply IH.
Qed.




(** ** Injection *)

Lemma inject_spec w :
  inject_roomiq_sensors w
  = if _injection_complete w then (Ok tt, w)
    else match async_setup_entry (nexia_sensor w) with
         | None => (Raise AttributeError, w)
         | Some original => (Ok tt, set_injected original w)
         end.
Proof.
  unfold inject_roomiq_sensors, WM.bind, WM.gets, WM.ret, WM.raise, WM.modify.
  destruct (_injection_complete w); [reflexivity |].
  now destruct (async_setup_entry (nexia_sensor w)).
Qed.

(** C3.  The injection changes two functions of the sibling and nothing
    else.  [inject_roomiq_sensors] leaves every attribute of the sensor module
    but [async_setup_entry] as it was, and touches no coordinator; on its
    first run it puts the wrapper in place of [async_setup_entry].
    [async_setup_roomiq_sensors] leaves the sensor module as it was, and of
    every coordinator it leaves every attribute but [_async_update_data] as it
    was; the [_async_update_data] of the entry's coordinator becomes the
    wrapper if no original had been saved for it, and no other coordinator's
    method changes. *)
Theorem patches_exactly_two_functions w :
  (let w' := snd (inject_roomiq_sensors w) in
   module_dict (nexia_sensor w') = module_dict (nexia_sensor w)
   /\ heap w' = heap w
   /\ async_setup_entry (nexia_sensor w')
      = if _injection_complete w then async_setup_entry (nexia_sensor w)
        else match async_setup_entry (nexia_sensor w) with
             | Some _ => Some SetupEntryWrapper
             | None => None
             end)
  /\ (forall config_entry,
      let w' := snd (async_setup_roomiq_sensors config_entry w) in
      nexia_sensor w' = nexia_sensor w
      /\ forall k,
          nexia_home (heap w' k) = nexia_home (heap w k)
          /\ coordinator_dict (heap w' k) = coordinator_dict (heap w k)
          /\ _async_update_data (heap w' k)
             = match runtime_data config_entry, _original_update_method w k with
               | Some cid, None =>
                   if k =? cid
                   then UpdateWithRoomiqRefresh k (nexia_home (heap w k))
                   else _async_update_data (heap w k)
               | _, _ => _async_update_data (heap w k)
               end).
Proof.
  split.
  - cbv zeta. rewrite inject_spec.
    destruct (_injection_complete w); [repeat split |].
    destruct (async_setup_entry (nexia_sensor w)) eqn:E; simpl;
      repeat split; assumption.
  - intros config_entry. cbv zeta.
    destruct (setup_roomiq_sensors_world config_entry w) as [added [-> _]].
    unfold wrap_coordinator.
    destruct (runtime_data config_entry) as [cid |]; simpl.
    + destruct (_original_update_method w cid) as [saved |] eqn:E; simpl.
      * split; [reflexivity |]. intros k. repeat split.
        destruct (_original_update_method w k) eqn:Ek; [reflexivity |].
        destruct (Z.eqb_spec k cid) as [-> | _]; [congruence | reflexivity].
      * split; [reflexivity |]. intros k.
        destruct (Z.eqb_spec k cid) as [-> | _]; simpl.
        -- rewrite E. repeat split.
        -- repeat split. now destruct (_original_update_method w k).
    + split; [reflexivity |]. intros k. repeat split.
Qed.

Lemma inject_again original w n :
  inject_times n (set_injected original w) = set_injected original w.
Proof.
  induction n as [| n IH]; [reflexivity |].
  cbn [inject_times]. rewrite inject_spec. simpl. exact IH.
Qed.

(** C8.  Once [inject_roomiq_sensors] has installed the wrapper, calling it
    again changes nothing: after any number of calls the system is as the
    first call left it, with the sibling's own function as saved original and
    the wrapper in the module.  The saved original is therefore not the
    wrapper, and a call of the wrapper runs the original set-up once. *)
Theorem inject_is_idempotent run w :
  _injection_complete w = false ->
  async_setup_entry (nexia_sensor w) = Some (NexiaSetupEntry run) ->
  forall n,
    let w' := inject_times (S n) w in
    w' = set_injected (NexiaSetupEntry run) w
    /\ inject_roomiq_sensors w' = (Ok tt, w')
    /\ async_setup_entry (nexia_sensor w') = Some SetupEntryWrapper
    /\ _original_async_setup_entry w' = Some (NexiaSetupEntry run)
    /\ _original_async_setup_entry w' <> Some SetupEntryWrapper
    /\ forall depth config_entry,
        List.length
          (filter is_original_setup
             (trace (snd (call_setup (S (S depth)) SetupEntryWrapper
                            config_entry w'))))
        = S (List.length (filter is_original_setup (trace w'))).
Proof.
  intros HC HA n. cbv zeta. cbn [inject_times].
  rewrite inject_spec, HC, HA. cbn [snd]. rewrite inject_again.
  split; [reflexivity |].
  split; [now rewrite inject_spec |].
  split; [reflexivity |].
  split; [reflexivity |].
  split; [discriminate |].
  intros depth config_entry.
  rewrite (setup_wrapper_spec depth config_entry run) by reflexivity.
  destruct (run _) as [[] | e].
  - destruct (setup_roomiq_sensors_world config_entry
                (add_events [EvOriginalSetup (entry_id config_entry); EvSleep 0.5]
                   (set_injected (NexiaSetupEntry run) w)))
      as [added [-> HF]].
    simpl. rewrite wrap_coordinator_trace. simpl.
    rewrite !filter_app, (no_setup_in_added _ HF). simpl.
    rewrite !length_app. simpl. lia.
  - simpl. rewrite filter_app, length_app. simpl. lia.
Qed.

Lemma inject_is_idempotent_witness :
  inject_times 3 Sample.initial_world
  = set_injected Sample.nexia_setup Sample.initial_world
  /\ List.length
       (filter is_original_setup
          (trace (snd (call_setup 2 SetupEntryWrapper Sample.entry
                         (inject_times 3 Sample.initial_world)))))
     = 1%nat.
Proof.
  destruct (inject_is_idempotent (fun _ => Ok tt) Sample.initial_world
              eq_refl eq_refl 2%nat) as [H1 [_ [_ [_ [_ H2]]]]].
  split; [exact H1 | exact (H2 0%nat Sample.entry)].
Defined.

(** ** The start-up hook *)


Lemma async_setup_unfold hass w :
  async_setup hass w
  = match setup_body hass (add_events [EvSleep 3] w) with
    | (Ok b, w') => (Ok b, w')
    | (Raise _, w') => (Ok false, w')
    end.
Proof. reflexivity. Qed.



(** ** Further facts about the set-up of the Room IQ sensors *)

(** Wrapping a coordinator for the first time saves the method it had and
    puts the wrapper in its place, whatever happens afterwards in the
    set-up. *)
Lemma first_setup_wraps_coordinator config_entry cid w :
  runtime_data config_entry = Some cid ->
  _original_update_method w cid = None ->
  let w' := snd (async_setup_roomiq_sensors config_entry w) in
  _original_update_method w' cid = Some (_async_update_data (heap w cid))
  /\ _async_update_data (heap w' cid)
     = UpdateWithRoomiqRefresh cid (nexia_home (heap w cid)).
Proof.
  intros HR HN. cbv zeta.
  destruct (setup_roomiq_sensors_world config_entry w) as [added [-> _]].
  unfold wrap_coordinator. rewrite HR, HN. simpl.
  now rewrite Z.eqb_refl.
Qed.

(** The loop that collects the entities (lines 155-162) is not inside a
    [try]: an exception of the home's look-ups leaves
    [async_setup_roomiq_sensors], after the coordinator has been wrapped. *)
Lemma setup_roomiq_sensors_can_raise :
  let w := set_wrapped 1 Sample.nexia_update
             {| nexia_home := Sample.broken_home;
                _async_update_data := Sample.nexia_update;
                coordinator_dict := fun _ => None |}
             Sample.initial_world in
  fst (async_setup_roomiq_sensors Sample.entry w) = Raise KeyError.
Proof. reflexivity. Qed.

(** * Further properties of the code *)

(** ** Equality of sensor ids *)

(** On integers and strings Python's [==] is equality. *)
Lemma py_eq_plain x y :
  plain_id x = true -> plain_id y = true -> (py_eq x y = true <-> x = y).
Proof.
  destruct x; try discriminate; destruct y; try discriminate; intros _ _;
    simpl.
  - unfold Qeq_bool. simpl. rewrite Z.eqb_eq, !Z.mul_1_r.
    split; [now intros -> | now inversion 1].
  - split; [discriminate | discriminate].
  - split; [discriminate | discriminate].
  - rewrite String.eqb_eq. split; [now intros -> | now inversion 1].
Qed.

Lemma py_eq_plain_refl x : plain_id x = true -> py_eq x x = true.
Proof.
  intros H. now apply py_eq_plain.
Qed.

(** ** Looking up the record of a sensor *)

Lemma get_sensor_data_scan st :
  fst (_get_sensor_data st)
  = match scan_features (_sensor_id (self st)) (zone_features (self_zone st)) with
    | Ok found => found
    | Raise _ => None
    end.
Proof.
  unfold _get_sensor_data, AccM.bind, AccM.gets, AccM.ret, zone_features.
  simpl. unfold get_sensor_data_body.
  destruct (getattr_zone_json (self_zone st)); try reflexivity.
  simpl. now destruct (py_iter _).
Qed.

Lemma find_sensor_sound sensor_id items : forall record,
  find_sensor sensor_id items = Ok (Some record) ->
  In record items /\ has_id sensor_id record = true.
Proof.
  induction items as [| item rest IH]; intros record H; simpl in H.
  - discriminate.
  - destruct item; simpl in H; try discriminate.
    destruct (py_eq _ _) eqn:E.
    + inversion H; subst. split; [now left | exact E].
    + destruct (IH _ H). split; [now right | assumption].
Qed.

Lemma scan_features_sound sensor_id features : forall record,
  scan_features sensor_id features = Ok (Some record) ->
  exists feature items,
    In feature features
    /\ is_room_iq_feature feature = true
    /\ feature_records feature = Ok items
    /\ In record items
    /\ has_id sensor_id record = true.
Proof.
  induction features as [| feature rest IH]; intros record H; simpl in H.
  - discriminate.
  - destruct feature as [| | | | | | f]; simpl in H; try discriminate.
    destruct (py_eq _ _) eqn:E.
    + destruct (py_iter _) as [items |] eqn:EI; simpl in H; [| discriminate].
      destruct (find_sensor sensor_id items) as [[found |] |] eqn:EF;
        simpl in H; try discriminate.
      * inversion H; subst.
        destruct (find_sensor_sound _ _ _ EF).
        exists (JDict f), items. repeat split; auto. now left.
      * destruct (IH _ H) as [feature [items' [H1 H2]]].
        exists feature, items'. split; [now right | exact H2].
    + destruct (IH _ H) as [feature [items' [H1 H2]]].
      exists feature, items'. split; [now right | exact H2].
Qed.

(** X1.  [_get_sensor_data] never hands out the record of another sensor:
    what it returns is an object whose id equals the entity's sensor id, and
    it is one of the records of a feature named ["room_iq_sensors"] of the
    entity's zone. *)
Theorem get_sensor_data_sound st record :
  fst (_get_sensor_data st) = Some record ->
  has_id (_sensor_id (self st)) record = true
  /\ exists feature items,
      In feature (zone_features (self_zone st))
      /\ is_room_iq_feature feature = true
      /\ feature_records feature = Ok items
      /\ In record items.
Proof.
  rewrite get_sensor_data_scan.
  destruct (scan_features _ _) as [found |] eqn:E; [| discriminate].
  intros ->.
  destruct (scan_features_sound _ _ _ E) as [feature [items [H1 [H2 [H3 [H4 H5]]]]]].
  split; [exact H5 |]. exists feature, items. auto.
Qed.

Lemma get_sensor_data_sound_witness :
  has_id (JInt 11) Sample.den = true
  /\ exists feature items,
      In feature (zone_features
                    (self_zone (Sample.entity_state_of 11 humidity true)))
      /\ is_room_iq_feature feature = true
      /\ feature_records feature = Ok items
      /\ In Sample.den items.
Proof.
  exact (get_sensor_data_sound (Sample.entity_state_of 11 humidity true)
           Sample.den eq_refl).
Defined.

Lemma find_sensor_first_match sensor_id items :
  forallb is_object items = true ->
  find_sensor sensor_id items = Ok (find (has_id sensor_id) items).
Proof.
  induction items as [| item rest IH]; intros H; simpl in *; [reflexivity |].
  apply andb_true_iff in H as [H1 H2].
  destruct item; try discriminate. simpl. unfold field.
  destruct (py_eq _ _); [reflexivity | now apply IH].
Qed.

Lemma find_app {A} (p : A -> bool) l1 l2 :
  find p (l1 ++ l2)
  = match find p l1 with Some x => Some x | None => find p l2 end.
Proof.
  induction l1 as [| x l1 IH]; simpl; [reflexivity |].
  now destruct (p x).
Qed.

Lemma scan_features_first_match sensor_id features :
  well_formed_features features = true ->
  scan_features sensor_id features
  = Ok (find (has_id sensor_id) (room_iq_records features)).
Proof.
  induction features as [| feature rest IH]; intros H; simpl in *;
    [reflexivity |].
  apply andb_true_iff in H as [H1 H2].
  apply andb_true_iff in H1 as [HO HR].
  destruct feature as [| | | | | | f]; try discriminate.
  simpl in HR |- *. unfold field in HR.
  destruct (py_eq _ _); [| now apply IH].
  unfold feature_records in HR |- *. simpl in HR |- *.
  destruct (py_iter _) as [items |]; [| discriminate].
  simpl. rewrite (find_sensor_first_match _ _ HR), find_app. simpl.
  destruct (find (has_id sensor_id) items); [reflexivity | now apply IH].
Qed.

(** X2.  When the features of the zone are objects and the Room IQ features
    hold objects only, [_get_sensor_data] returns the first record, over all
    features named ["room_iq_sensors"] in order, whose id equals the entity's
    sensor id, and [None] when there is none.  (Creation reads the first such
    feature only; the look-up reads them all.) *)
Theorem get_sensor_data_first_match st :
  well_formed_features (zone_features (self_zone st)) = true ->
  fst (_get_sensor_data st)
  = find (has_id (_sensor_id (self st)))
      (room_iq_records (zone_features (self_zone st))).
Proof.
  intros H. rewrite get_sensor_data_scan.
  now rewrite (scan_features_first_match _ _ H).
Qed.

Lemma get_sensor_data_first_match_witness :
  fst (_get_sensor_data
         (entity_in (new_sensor 1 (Sample.zone_of []) (Sample.a_thermostat [])
                       (JInt 13) (JStr "Attic") weight)
            (Sample.zone_of [Sample.room_iq [Sample.den];
                             Sample.thermostat_mode;
                             Sample.room_iq [Sample.hall; Sample.attic]])
            true))
  = Some Sample.attic.
Proof.
  exact (get_sensor_data_first_match
           (entity_in (new_sensor 1 (Sample.zone_of []) (Sample.a_thermostat [])
                         (JInt 13) (JStr "Attic") weight)
              (Sample.zone_of [Sample.room_iq [Sample.den];
                               Sample.thermostat_mode;
                               Sample.room_iq [Sample.hall; Sample.attic]])
              true)
           eq_refl).
Defined.

Lemma scan_skips_other_features sensor_id pre : forall rest,
  forallb is_other_feature pre = true ->
  scan_features sensor_id (pre ++ rest) = scan_features sensor_id rest.
Proof.
  induction pre as [| feature pre IH]; intros rest H; simpl in *.
  - reflexivity.
  - apply andb_true_iff in H as [H1 H2].
    destruct feature; simpl in H1; try discriminate.
    simpl. unfold field in H1.
    destruct (py_eq _ _); simpl in H1; try discriminate.
    now apply IH.
Qed.

Lemma find_sensor_skips sensor_id pre : forall rest,
  forallb (fun r => is_object r && negb (has_id sensor_id r)) pre = true ->
  find_sensor sensor_id (pre ++ rest) = find_sensor sensor_id rest.
Proof.
  induction pre as [| record pre IH]; intros rest H; simpl in *.
  - reflexivity.
  - apply andb_true_iff in H as [H1 H2].
    apply andb_true_iff in H1 as [HO HI].
    destruct record; try discriminate.
    simpl in HI |- *. unfold field in HI.
    destruct (py_eq _ _); simpl in HI; try discriminate.
    now apply IH.
Qed.

(** X3.  One record that is not an object hides the sensors listed after it:
    when the look-up meets such a record before a record with the entity's
    id, [_get_sensor_data] gives [None], so the entity has no value, no
    attributes, and is unavailable; this holds although creation skips the
    faulty record and makes entities for the records after it. *)
Theorem faulty_record_hides_sensors st pre_f feature post_f pre bad post :
  zone_features (self_zone st) = pre_f ++ feature :: post_f ->
  forallb is_other_feature pre_f = true ->
  is_room_iq_feature feature = true ->
  feature_records feature = Ok (pre ++ bad :: post) ->
  forallb (fun r => is_object r && negb (has_id (_sensor_id (self st)) r)) pre
  = true ->
  is_object bad = false ->
  fst (_get_sensor_data st) = None
  /\ fst (native_value st) = JNull
  /\ fst (extra_state_attributes st) = JDict []
  /\ fst (available st) = Ok (JBool false).
Proof.
  intros HZ Hpre HF HR HP HB.
  assert (HN : fst (_get_sensor_data st) = None).
  { rewrite get_sensor_data_scan, HZ, scan_skips_other_features by exact Hpre.
    destruct feature as [| | | | | | f]; try discriminate.
    simpl in HF |- *. unfold field in HF. rewrite HF.
    unfold feature_records in HR. simpl in HR |- *.
    destruct (py_iter _) as [items |]; [| discriminate].
    inversion HR; subst. simpl.
    rewrite find_sensor_skips by exact HP.
    destruct bad; try discriminate; reflexivity. }
  split; [exact HN |].
  rewrite native_value_unfold, extra_state_attributes_unfold, available_unfold, HN.
  repeat split. now destruct (negb _).
Qed.

Lemma faulty_record_hides_sensors_witness :
  let zn := Sample.zone_of [Sample.thermostat_mode;
                            Sample.room_iq [Sample.den; JInt 5; Sample.hall]] in
  let hall_weight :=
    new_sensor 1 zn (Sample.a_thermostat []) (JInt 12) (JStr "Hall") weight in
  In hall_weight
    (match _create_roomiq_sensors 1 zn (Sample.a_thermostat []) with
     | Ok created => created
     | Raise _ => []
     end)
  /\ fst (_get_sensor_data (entity_in hall_weight zn true)) = None
  /\ fst (available (entity_in hall_weight zn true)) = Ok (JBool false).
Proof.
  cbv zeta.
  destruct (faulty_record_hides_sensors
              (entity_in
                 (new_sensor 1
                    (Sample.zone_of [Sample.thermostat_mode;
                                     Sample.room_iq [Sample.den; JInt 5; Sample.hall]])
                    (Sample.a_thermostat []) (JInt 12) (JStr "Hall") weight)
                 (Sample.zone_of [Sample.thermostat_mode;
                                  Sample.room_iq [Sample.den; JInt 5; Sample.hall]])
                 true)
              [Sample.thermostat_mode]
              (Sample.room_iq [Sample.den; JInt 5; Sample.hall])
              [] [Sample.den] (JInt 5) [Sample.hall]
              eq_refl eq_refl eq_refl eq_refl eq_refl eq_refl)
    as [H1 [_ [_ H4]]].
  split; [| split; [exact H1 | exact H4]].
  simpl. right. right. right. left. reflexivity.
Defined.

(** ** What creation and look-up have in common *)

Lemma create_scan coordinator zn th :
  _create_roomiq_sensors coordinator zn th
  = Res.try_except
      (room_iq_feature <- find_room_iq_feature (zone_features zn) ;;
       if negb (truthy room_iq_feature) then Ok []
       else
         sensors <- py_get room_iq_feature "sensors" (JList []) ;;
         if negb (truthy sensors) then Ok []
         else
           _ <- py_len sensors ;;
           items <- py_iter sensors ;;
           Ok (sensor_loop coordinator zn th [] items))%res
      (fun _ => Ok []).
Proof.
  unfold _create_roomiq_sensors, create_body, zone_features.
  destruct (getattr_zone_json zn); try reflexivity.
  simpl. now destruct (py_iter _).
Qed.

Lemma create_on_first_feature coordinator zn th pre_f f post_f sensors :
  zone_features zn = pre_f ++ JDict f :: post_f ->
  forallb is_other_feature pre_f = true ->
  is_room_iq_feature (JDict f) = true ->
  dict_get "sensors" f = Some (JList sensors) ->
  _create_roomiq_sensors coordinator zn th
  = Ok (flat_map (record_entities coordinator zn th) sensors).
Proof.
  intros HZ Hpre Hf HS.
  rewrite create_scan, HZ, find_skips_other_features by exact Hpre.
  simpl in Hf. unfold field in Hf.
  destruct f as [| binding f']; [discriminate HS |].
  cbn [find_room_iq_feature py_get Res.bind]. rewrite Hf.
  cbn [truthy negb Res.bind py_get]. rewrite HS.
  destruct sensors as [| record rest]; [reflexivity |].
  cbn [truthy negb Res.bind py_len py_iter Res.try_except].
  now rewrite sensor_loop_spec.
Qed.

Lemma create_is_flat_map coordinator zn th :
  exists items,
    _create_roomiq_sensors coordinator zn th
    = Ok (flat_map (record_entities coordinator zn th) items).
Proof.
  rewrite create_scan.
  destruct (find_room_iq_feature _) as [feature |]; simpl;
    [| now exists []].
  destruct (negb (truthy feature)); [now exists [] |].
  destruct (py_get feature _ _) as [sensors |]; simpl; [| now exists []].
  destruct (negb (truthy sensors)); [now exists [] |].
  destruct (py_len sensors); simpl; [| now exists []].
  destruct (py_iter sensors) as [items |]; simpl; [| now exists []].
  exists items. now rewrite sensor_loop_spec.
Qed.

Lemma in_record_entities coordinator zn th record e :
  In e (record_entities coordinator zn th record) ->
  exists r,
    record = JDict r
    /\ _sensor_id e = field r "id"
    /\ _sensor_name e = field r "name"
    /\ truthy (field r "id") = true
    /\ truthy (field r "name") = true
    /\ _coordinator e = coordinator
    /\ _zone e = zone_id zn
    /\ _thermostat e = thermostat_id th.
Proof.
  destruct record as [| | | | | | r]; simpl; try contradiction.
  destruct (truthy (field r "id")) eqn:E1; simpl; [| contradiction].
  destruct (truthy (field r "name")) eqn:E2; simpl; [| contradiction].
  intros H. exists r.
  repeat rewrite in_app_iff in H.
  destruct (flag r "temperature_valid"), (flag r "humidity_valid"),
    (flag r "has_battery" && flag r "battery_valid");
    simpl in H; intuition (subst; simpl; auto).
Qed.

(** X4.  An entity finds the record it was made from.  When the features
    before the first one named ["room_iq_sensors"] are objects of other names
    and that feature's sensor list holds objects only, then for every entity
    that [_create_roomiq_sensors] returns and whose sensor id is an integer
    or a string, [_get_sensor_data] on the same zone returns a record of
    that list whose id equals the entity's. *)
Theorem created_entity_finds_record coordinator zn th pre_f f post_f sensors :
  zone_features zn = pre_f ++ JDict f :: post_f ->
  forallb is_other_feature pre_f = true ->
  is_room_iq_feature (JDict f) = true ->
  dict_get "sensors" f = Some (JList sensors) ->
  forallb is_object sensors = true ->
  forall created e parent,
    _create_roomiq_sensors coordinator zn th = Ok created ->
    In e created ->
    plain_id (_sensor_id e) = true ->
    exists r,
      fst (_get_sensor_data (entity_in e zn parent)) = Some (JDict r)
      /\ In (JDict r) sensors
      /\ py_eq (field r "id") (_sensor_id e) = true.
Proof.
  intros HZ Hpre Hf HS HO created e parent HC HI HP.
  rewrite (create_on_first_feature _ _ _ _ _ _ _ HZ Hpre Hf HS) in HC.
  inversion HC; subst created. clear HC.
  apply in_flat_map in HI as [record [HR HE]].
  apply in_record_entities in HE as [r0 [-> [Hid _]]].
  rewrite get_sensor_data_scan. simpl.
  rewrite HZ, scan_skips_other_features by exact Hpre.
  simpl in Hf |- *. unfold field in Hf. rewrite Hf, HS. simpl.
  rewrite (find_sensor_first_match _ _ HO). simpl.
  destruct (find (has_id (_sensor_id e)) sensors) as [found |] eqn:E.
  - apply find_some in E as [E1 E2].
    destruct found as [| | | | | | r]; try discriminate.
    exists r. repeat split; assumption.
  - apply (find_none _ _ E) in HR. simpl in HR.
    rewrite <- Hid, (py_eq_plain_refl _ HP) in HR. discriminate.
Qed.

Lemma created_entity_finds_record_witness :
  let zn := Sample.zone_of [Sample.thermostat_mode;
                            Sample.room_iq [Sample.den; Sample.hall]] in
  exists r,
    fst (_get_sensor_data
           (entity_in (new_sensor 1 zn (Sample.a_thermostat [])
                         (JInt 12) (JStr "Hall") weight) zn false))
    = Some (JDict r)
    /\ In (JDict r) [Sample.den; Sample.hall]
    /\ py_eq (field r "id") (JInt 12) = true.
Proof.
  cbv zeta.
  apply (created_entity_finds_record 1
           (Sample.zone_of [Sample.thermostat_mode;
                            Sample.room_iq [Sample.den; Sample.hall]])
           (Sample.a_thermostat [])
           [Sample.thermostat_mode]
           [("name", JStr "room_iq_sensors");
            ("sensors", JList [Sample.den; Sample.hall])]
           [] [Sample.den; Sample.hall]
           eq_refl eq_refl eq_refl eq_refl eq_refl
           (flat_map (record_entities 1
                        (Sample.zone_of [Sample.thermostat_mode;
                                         Sample.room_iq [Sample.den; Sample.hall]])
                        (Sample.a_thermostat []))
              [Sample.den; Sample.hall])
           (new_sensor 1
              (Sample.zone_of [Sample.thermostat_mode;
                               Sample.room_iq [Sample.den; Sample.hall]])
              (Sample.a_thermostat []) (JInt 12) (JStr "Hall") weight)
           false eq_refl).
  - simpl. right. right. right. left. reflexivity.
  - reflexivity.
Defined.

(** X5.  Whatever the zone's JSON looks like, every entity that
    [_create_roomiq_sensors] returns has a truthy sensor id and a truthy
    name, and refers to the coordinator, the zone and the thermostat it was
    created for. *)
Theorem created_entities_wellformed coordinator zn th created e :
  _create_roomiq_sensors coordinator zn th = Ok created ->
  In e created ->
  truthy (_sensor_id e) = true
  /\ truthy (_sensor_name e) = true
  /\ _coordinator e = coordinator
  /\ _zone e = zone_id zn
  /\ _thermostat e = thermostat_id th.
Proof.
  intros HC HI.
  destruct (create_is_flat_map coordinator zn th) as [items HE].
  rewrite HE in HC. inversion HC; subst created.
  apply in_flat_map in HI as [record [_ HR]].
  apply in_record_entities in HR
    as [r [_ [-> [-> [H1 [H2 [H3 [H4 H5]]]]]]]].
  repeat split; assumption.
Qed.

Lemma created_entities_wellformed_witness :
  let e := {| _coordinator := 1; _zone := 7; _thermostat := 3;
              _sensor_id := JInt 11; _sensor_name := JStr "Den";
              _sensor_type := battery |} in
  truthy (_sensor_id e) = true
  /\ truthy (_sensor_name e) = true
  /\ _coordinator e = 1
  /\ _zone e = 7
  /\ _thermostat e = 3.
Proof.
  cbv zeta.
  apply (created_entities_wellformed 1
           (Sample.zone_of [Sample.room_iq [JStr "junk"; Sample.den]])
           (Sample.a_thermostat []) _ _ eq_refl).
  simpl. right. left. reflexivity.
Defined.

Lemma find_own_record sensors : forall record,
  forallb is_object sensors = true ->
  ids_differ (map record_id sensors) = true ->
  In record sensors ->
  has_id (record_id record) record = true ->
  find (has_id (record_id record)) sensors = Some record.
Proof.
  induction sensors as [| x rest IH]; intros record HO HD HI HR;
    [contradiction |].
  simpl in HO, HD |- *.
  apply andb_true_iff in HO as [HO1 HO2].
  apply andb_true_iff in HD as [HD1 HD2].
  destruct HI as [-> | HI].
  - now rewrite HR.
  - assert (HX : has_id (record_id record) x = false).
    { destruct x as [| | | | | | r]; try discriminate. simpl.
      rewrite forallb_forall in HD1.
      specialize (HD1 (record_id record) (in_map record_id _ _ HI)).
      simpl in HD1. now apply negb_true_iff in HD1. }
    rewrite HX. now apply IH.
Qed.

(** X6.  With ids that differ, every entity reads its own record.  When the
    features before the first one named ["room_iq_sensors"] are objects of
    other names, that feature's sensor list holds objects only, and no id in
    the list equals (Python's [==]) the id of a record further down, then
    for every record of the list and every entity made from it whose sensor
    id is an integer or a string, [_get_sensor_data] on the same zone returns
    that very record. *)
Theorem created_entity_reads_own_record coordinator zn th pre_f f post_f sensors :
  zone_features zn = pre_f ++ JDict f :: post_f ->
  forallb is_other_feature pre_f = true ->
  is_room_iq_feature (JDict f) = true ->
  dict_get "sensors" f = Some (JList sensors) ->
  forallb is_object sensors = true ->
  ids_differ (map record_id sensors) = true ->
  forall record e parent,
    In record sensors ->
    In e (record_entities coordinator zn th record) ->
    plain_id (_sensor_id e) = true ->
    (exists created,
        _create_roomiq_sensors coordinator zn th = Ok created /\ In e created)
    /\ fst (_get_sensor_data (entity_in e zn parent)) = Some record.
Proof.
  intros HZ Hpre Hf HS HO HD record e parent HR HE HP. split.
  - exists (flat_map (record_entities coordinator zn th) sensors).
    split; [now apply (create_on_first_feature _ _ _ pre_f f post_f) |].
    apply in_flat_map. exists record. now split.
  - apply in_record_entities in HE as [r0 [-> [Hid _]]].
    rewrite get_sensor_data_scan. simpl.
    rewrite HZ, scan_skips_other_features by exact Hpre.
    simpl in Hf |- *. unfold field in Hf. rewrite Hf, HS. simpl.
    rewrite (find_sensor_first_match _ _ HO). simpl.
    rewrite Hid.
    assert (HF : find (has_id (record_id (JDict r0))) sensors = Some (JDict r0)).
    { apply (find_own_record sensors (JDict r0) HO HD HR).
      simpl. rewrite <- Hid. now apply py_eq_plain_refl. }
    simpl in HF. now rewrite HF.
Qed.

Lemma created_entity_reads_own_record_witness :
  let zn := Sample.zone_of [Sample.thermostat_mode;
                            Sample.room_iq [Sample.den; Sample.hall;
                                            Sample.attic]] in
  let e := new_sensor 1 zn (Sample.a_thermostat [])
             (JInt 13) (JStr "Attic") temperature in
  (exists created,
      _create_roomiq_sensors 1 zn (Sample.a_thermostat []) = Ok created
      /\ In e created)
  /\ fst (_get_sensor_data (entity_in e zn true)) = Some Sample.attic.
Proof.
  cbv zeta.
  apply (created_entity_reads_own_record 1
           (Sample.zone_of [Sample.thermostat_mode;
                            Sample.room_iq [Sample.den; Sample.hall;
                                            Sample.attic]])
           (Sample.a_thermostat [])
           [Sample.thermostat_mode]
           [("name", JStr "room_iq_sensors");
            ("sensors", JList [Sample.den; Sample.hall; Sample.attic])]
           [] [Sample.den; Sample.hall; Sample.attic]
           eq_refl eq_refl eq_refl eq_refl eq_refl eq_refl
           Sample.attic
           (new_sensor 1
              (Sample.zone_of [Sample.thermostat_mode;
                               Sample.room_iq [Sample.den; Sample.hall;
                                               Sample.attic]])
              (Sample.a_thermostat []) (JInt 13) (JStr "Attic") temperature)
           true).
  - simpl. right. right. left. reflexivity.
  - simpl. left. reflexivity.
  - reflexivity.
Defined.

(** ** The properties of an entity, taken together *)

(** X7.  An entity that reports itself available reports the reading of its
    record: whenever [available] is truthy, the parent is available, a record
    was found, and [native_value] is that record's temperature, humidity,
    battery level or weight, according to the entity's type. *)
Theorem available_entity_reports_reading st v :
  fst (available st) = Ok v ->
  truthy v = true ->
  super_available st = true
  /\ exists r,
      fst (_get_sensor_data st) = Some (JDict r)
      /\ fst (native_value st) = reading (_sensor_type (self st)) r.
Proof.
  rewrite available_unfold, native_value_unfold.
  destruct (super_available st); cbn [negb];
    [| intros H HT; inversion H; subst; simpl in HT; discriminate HT].
  destruct (fst (_get_sensor_data st)) as [record |] eqn:E;
    [| intros H HT; inversion H; subst; simpl in HT; discriminate HT].
  destruct (get_sensor_data_is_object _ _ E) as [r ->].
  intros HA HT. split; [reflexivity |]. exists r. split; [reflexivity |].
  destruct (available_body_spec (_sensor_type (self st)) r) as [v' [Hv Ht]].
  rewrite Hv in HA. inversion HA; subst v'. rewrite HT in Ht.
  symmetry in Ht. apply andb_true_iff in Ht as [_ Ht].
  destruct (_sensor_type (self st)); simpl in Ht |- *; unfold flag in Ht.
  - now rewrite Ht.
  - now rewrite Ht.
  - apply andb_true_iff in Ht as [Ht _]. now rewrite Ht.
  - reflexivity.
Qed.

Lemma available_entity_reports_reading_witness :
  super_available (Sample.entity_state_of 11 battery true) = true
  /\ exists r,
      fst (_get_sensor_data (Sample.entity_state_of 11 battery true))
      = Some (JDict r)
      /\ fst (native_value (Sample.entity_state_of 11 battery true))
         = reading battery r.
Proof.
  exact (available_entity_reports_reading
           (Sample.entity_state_of 11 battery true) (JBool true)
           eq_refl eq_refl).
Defined.

(** X8.  The attributes follow the record.  Without a record the attributes
    are empty.  With one they always hold the entity's sensor id and name and
    the record's type, serial number and weight (0.0 when it has none);
    [connected] appears iff the record [has_online]; the battery level and
    the low-battery flag appear iff the record has a valid battery; and the
    temperature and humidity readings appear iff they are valid and the
    entity is not the battery entity. *)
Theorem attributes_follow_record st :
  (fst (_get_sensor_data st) = None ->
   fst (extra_state_attributes st) = JDict [])
  /\ (forall r,
      fst (_get_sensor_data st) = Some (JDict r) ->
      exists attrs,
        fst (extra_state_attributes st) = JDict attrs
        /\ dict_get "sensor_id" attrs = Some (_sensor_id (self st))
        /\ dict_get "sensor_name" attrs = Some (_sensor_name (self st))
        /\ dict_get "sensor_type" attrs = Some (field r "type")
        /\ dict_get "serial_number" attrs = Some (field r "serial_number")
        /\ dict_get "weight" attrs = Some (reading weight r)
        /\ dict_get "connected" attrs
           = (if flag r "has_online"
              then Some (get_or_false r "connected") else None)
        /\ dict_get "battery_level" attrs
           = (if flag r "has_battery" && flag r "battery_valid"
              then Some (field r "battery_level") else None)
        /\ dict_get "battery_low" attrs
           = (if flag r "has_battery" && flag r "battery_valid"
              then Some (get_or_false r "battery_low") else None)
        /\ dict_get "temperature" attrs
           = (if negb (sensor_type_eqb (_sensor_type (self st)) battery)
                 && flag r "temperature_valid"
              then Some (field r "temperature") else None)
        /\ dict_get "humidity" attrs
           = (if negb (sensor_type_eqb (_sensor_type (self st)) battery)
                 && flag r "humidity_valid"
              then Some (field r "humidity") else None)).
Proof.
  rewrite extra_state_attributes_unfold. split.
  - intros ->. reflexivity.
  - intros r ->. eexists. split; [reflexivity |].
    unfold flag, get_or_false, field, reading.
    destruct (_sensor_type (self st)); simpl;
      destruct (truthy match dict_get "has_online" r with
                       | Some v => v | None => JBool false end);
      destruct (truthy match dict_get "has_battery" r with
                       | Some v => v | None => JBool false end);
      destruct (truthy match dict_get "battery_valid" r with
                       | Some v => v | None => JBool false end);
      destruct (truthy match dict_get "temperature_valid" r with
                       | Some v => v | None => JBool false end);
      destruct (truthy match dict_get "humidity_valid" r with
                       | Some v => v | None => JBool false end);
      simpl; repeat split; reflexivity.
Qed.

Lemma attributes_follow_record_witness :
  fst (extra_state_attributes (Sample.entity_state_of 99 weight true)) = JDict []
  /\ exists attrs,
      fst (extra_state_attributes (Sample.entity_state_of 13 temperature true))
      = JDict attrs
      /\ dict_get "connected" attrs = Some (JBool false)
      /\ dict_get "battery_level" attrs = None
      /\ dict_get "temperature" attrs = Some (JInt 80).
Proof.
  split.
  - exact (proj1 (attributes_follow_record
                    (Sample.entity_state_of 99 weight true)) eq_refl).
  - destruct (proj2 (attributes_follow_record
                       (Sample.entity_state_of 13 temperature true))
                [("id", JInt 13); ("name", JStr "Attic");
                 ("temperature", JInt 80); ("temperature_valid", JBool true);
                 ("has_online", JBool true); ("connected", JBool false)]
                eq_refl)
      as [attrs [H0 [_ [_ [_ [_ [_ [H1 [H2 [_ [H3 _]]]]]]]]]]].
    exists attrs. repeat split; assumption.
Defined.

(** ** The set-up of the sensors, end to end *)







Lemma setup_keeps_wrapped config_entry cid saved w :
  runtime_data config_entry = Some cid ->
  _original_update_method w cid = Some saved ->
  let w' := snd (async_setup_roomiq_sensors config_entry w) in
  _original_update_method w' = _original_update_method w
  /\ heap w' = heap w.
Proof.
  intros HR HS. cbv zeta.
  destruct (setup_roomiq_sensors_world config_entry w) as [added [-> _]].
  unfold wrap_coordinator. rewrite HR, HS. split; reflexivity.
Qed.

Lemma setup_times_keeps_wrapped config_entry cid saved n : forall w,
  runtime_data config_entry = Some cid ->
  _original_update_method w cid = Some saved ->
  _original_update_method (setup_times n config_entry w)
  = _original_update_method w
  /\ heap (setup_times n config_entry w) = heap w.
Proof.
  induction n as [| n IH]; intros w HR HS; [split; reflexivity |].
  cbn [setup_times].
  destruct (setup_keeps_wrapped _ _ _ _ HR HS) as [H1 H2].
  destruct (IH (snd (async_setup_roomiq_sensors config_entry w)) HR) as [H3 H4].
  - now rewrite H1.
  - split; congruence.
Qed.

(** X10.  A coordinator is wrapped once, however often its entry is set up
    (every reload sets it up again).  After any number of set-ups the saved
    original is still the method the coordinator had at first, and its update
    method is the wrapper around that, not a wrapper around a wrapper: a
    refresh runs the added phase once, then the first method once, and
    returns what that returns. *)
Theorem coordinator_wrapped_once config_entry cid run w n depth :
  runtime_data config_entry = Some cid ->
  _original_update_method w cid = None ->
  _async_update_data (heap w cid) = NexiaUpdateData run ->
  let home := nexia_home (heap w cid) in
  let w' := setup_times (S n) config_entry w in
  _original_update_method w' cid = Some (NexiaUpdateData run)
  /\ _async_update_data (heap w' cid) = UpdateWithRoomiqRefresh cid home
  /\ call_update (S (S depth)) (_async_update_data (heap w' cid)) w'
     = (run (trace w' ++ phase_events home),
        add_events (phase_events home ++ [EvOriginalUpdate]) w').
Proof.
  intros HR HN HM. cbv zeta. cbn [setup_times].
  destruct (first_setup_wraps_coordinator _ _ _ HR HN) as [H1 H2].
  rewrite HM in H1.
  destruct (setup_times_keeps_wrapped config_entry cid _ n
              (snd (async_setup_roomiq_sensors config_entry w)) HR H1)
    as [H3 H4].
  rewrite H3, H4. split; [exact H1 |]. split; [exact H2 |].
  rewrite H2.
  rewrite (wrapper_then_original _ _ _ (NexiaUpdateData run));
    [| now rewrite H3].
  rewrite original_update_spec, add_events_app. reflexivity.
Qed.

Lemma coordinator_wrapped_once_witness :
  let w' := setup_times 3 Sample.entry (Cases.world_of Cases.two_zone_home) in
  _original_update_method w' 1 = Some Sample.nexia_update
  /\ _async_update_data (heap w' 1)
     = UpdateWithRoomiqRefresh 1 Cases.two_zone_home
  /\ call_update 2 (_async_update_data (heap w' 1)) w'
     = (Ok (JStr "fresh data"),
        add_events
          [EvLoadCurrentSensorState 7; EvLoadCurrentSensorState 8;
           EvSleep 5; EvOriginalUpdate] w').
Proof.
  exact (coordinator_wrapped_once Sample.entry 1
           (fun _ => Ok (JStr "fresh data"))
           (Cases.world_of Cases.two_zone_home) 2 0
           eq_refl eq_refl eq_refl).
Defined.



(** ** The start-up hook when something fails *)

Lemma reload_stops_at_failure hass pre bad post e : forall w,
  forallb (reload_ok hass) pre = true ->
  async_reload hass (entry_id bad) = Raise e ->
  for_each (pre ++ bad :: post) (fun entry =>
    emit (EvReload (entry_id entry)) ;;;
    _ <- WM.lift (async_reload hass (entry_id entry)) ;;
    WM.ret tt)%wm w
  = (Raise e, add_events (map reload_event (pre ++ [bad])) w).
Proof.
  induction pre as [| entry rest IH]; intros w H HB; simpl.
  - unfold WM.bind at 1. unfold WM.bind at 1. unfold emit at 1.
    unfold WM.modify at 1. unfold WM.bind at 1. unfold WM.lift at 1.
    now rewrite HB.
  - simpl in H. apply andb_true_iff in H as [H1 H2].
    unfold reload_ok in H1.
    unfold WM.bind at 1. unfold WM.bind at 1. unfold emit at 1.
    unfold WM.modify at 1. unfold WM.bind at 1. unfold WM.lift at 1.
    destruct (async_reload hass (entry_id entry)); [| discriminate].
    unfold WM.ret at 1. rewrite (IH _ H2 HB), add_events_app. reflexivity.
Qed.

(** X12.  A failed reload is not undone.  When reloading one of the entries
    raises, [async_setup] returns [False], the entries after it are not
    reloaded, and the injection made before stays in place, as do the reloads
    already done. *)
Theorem reload_failure_keeps_injection hass w pre bad post e w1 :
  async_entries hass NEXIA_DOMAIN = Ok (pre ++ bad :: post) ->
  import_nexia_sensor w = Ok tt ->
  inject_roomiq_sensors (add_events [EvSleep 3] w) = (Ok tt, w1) ->
  forallb (reload_ok hass) pre = true ->
  async_reload hass (entry_id bad) = Raise e ->
  async_setup hass w
  = (Ok false, add_events (map reload_event (pre ++ [bad])) w1).
Proof.
  intros HE HI HJ HP HB. rewrite async_setup_unfold.
  unfold setup_body. unfold WM.bind at 1. unfold WM.lift at 1. rewrite HE.
  assert (HN : is_empty (pre ++ bad :: post) = false) by now destruct pre.
  rewrite HN.
  unfold WM.bind at 1. unfold WM.gets at 1.
  unfold WM.bind at 1. unfold WM.lift at 1. cbn [import_nexia_sensor add_events].
  rewrite HI.
  unfold WM.bind at 1. rewrite HJ.
  unfold WM.bind at 1. rewrite (reload_stops_at_failure _ _ _ _ _ _ HP HB).
  reflexivity.
Qed.

Lemma reload_failure_keeps_injection_witness :
  async_setup
    {| async_entries := fun _ => Ok [Sample.entry; Sample.other_entry];
       async_reload := fun id =>
         if String.eqb id "entry-1" then Raise (OtherError "reload failed")
         else Ok true |}
    Sample.initial_world
  = (Ok false,
     add_events [EvReload "entry-1"]
       (set_injected Sample.nexia_setup
          (add_events [EvSleep 3] Sample.initial_world))).
Proof.
  exact (reload_failure_keeps_injection
           {| async_entries := fun _ => Ok [Sample.entry; Sample.other_entry];
              async_reload := fun id =>
                if String.eqb id "entry-1" then Raise (OtherError "reload failed")
                else Ok true |}
           Sample.initial_world [] Sample.entry [Sample.other_entry]
           (OtherError "reload failed")
           (set_injected Sample.nexia_setup
              (add_events [EvSleep 3] Sample.initial_world))
           eq_refl eq_refl eq_refl eq_refl eq_refl).
Defined.

(** X13.  When the hook fails before the injection, nothing is touched.  If
    listing the entries raises, or the sibling's sensor module cannot be
    imported, or that module has no [async_setup_entry] to wrap, [async_setup]
    returns [False] having only slept: nothing is injected and no entry is
    reloaded. *)
Theorem setup_fails_before_injection hass w :
  (forall e, async_entries hass NEXIA_DOMAIN = Raise e ->
             async_setup hass w = (Ok false, add_events [EvSleep 3] w))
  /\ (forall entries e,
      async_entries hass NEXIA_DOMAIN = Ok entries ->
      import_nexia_sensor w = Raise e ->
      async_setup hass w = (Ok false, add_events [EvSleep 3] w))
  /\ (forall entries,
      async_entries hass NEXIA_DOMAIN = Ok entries ->
      _injection_complete w = false ->
      async_setup_entry (nexia_sensor w) = None ->
      async_setup hass w = (Ok false, add_events [EvSleep 3] w)).
Proof.
  rewrite async_setup_unfold.
  split; [| split].
  - intros e HE. unfold setup_body. unfold WM.bind at 1. unfold WM.lift at 1.
    now rewrite HE.
  - intros entries e HE HI.
    unfold setup_body. unfold WM.bind at 1. unfold WM.lift at 1. rewrite HE.
    destruct (is_empty entries); [reflexivity |].
    unfold WM.bind at 1. unfold WM.gets at 1.
    unfold WM.bind at 1. unfold WM.lift at 1. cbn [import_nexia_sensor add_events].
    now rewrite HI.
  - intros entries HE HC HA.
    unfold setup_body. unfold WM.bind at 1. unfold WM.lift at 1. rewrite HE.
    destruct (is_empty entries); [reflexivity |].
    unfold WM.bind at 1. unfold WM.gets at 1.
    unfold WM.bind at 1. unfold WM.lift at 1. cbn [import_nexia_sensor add_events].
    destruct (import_nexia_sensor w) as [[] | e]; [| reflexivity].
    unfold WM.bind at 1. rewrite inject_spec.
    cbn [_injection_complete nexia_sensor add_events]. now rewrite HC, HA.
Qed.

Lemma setup_fails_before_injection_witness :
  async_setup
    {| async_entries := fun _ => Raise (OtherError "not ready");
       async_reload := fun _ => Ok true |}
    Sample.initial_world
  = (Ok false, add_events [EvSleep 3] Sample.initial_world)
  /\ async_setup (Sample.hass_with [Sample.entry])
       {| _original_async_setup_entry := None;
          _original_update_method := fun _ => None;
          _injection_complete := false;
          nexia_sensor := nexia_sensor Sample.initial_world;
          import_nexia_sensor := Raise ImportError;
          heap := heap Sample.initial_world;
          trace := [] |}
     = (Ok false,
        add_events [EvSleep 3]
          {| _original_async_setup_entry := None;
             _original_update_method := fun _ => None;
             _injection_complete := false;
             nexia_sensor := nexia_sensor Sample.initial_world;
             import_nexia_sensor := Raise ImportError;
             heap := heap Sample.initial_world;
             trace := [] |})
  /\ async_setup (Sample.hass_with [Sample.entry]) Cases.world_without_setup
     = (Ok false, add_events [EvSleep 3] Cases.world_without_setup).
Proof.
  split; [| split].
  - exact (proj1 (setup_fails_before_injection
                    {| async_entries := fun _ => Raise (OtherError "not ready");
                       async_reload := fun _ => Ok true |}
                    Sample.initial_world)
             (OtherError "not ready") eq_refl).
  - exact (proj1 (proj2 (setup_fails_before_injection
                           (Sample.hass_with [Sample.entry])
                           {| _original_async_setup_entry := None;
                              _original_update_method := fun _ => None;
                              _injection_complete := false;
                              nexia_sensor := nexia_sensor Sample.initial_world;
                              import_nexia_sensor := Raise ImportError;
                              heap := heap Sample.initial_world;
                              trace := [] |}))
             [Sample.entry] ImportError eq_refl eq_refl).
  - exact (proj2 (proj2 (setup_fails_before_injection
                           (Sample.hass_with [Sample.entry])
                           Cases.world_without_setup))
             [Sample.entry] eq_refl eq_refl eq_refl).
Defined.

(** ** The refresh and its requests *)

Lemma visit_zones_with_requests g th zone_ids :
  visit_zones (thermostat_with_requests g th) zone_ids
  = (map (zone_with_request g) (fst (visit_zones th zone_ids)),
     snd (visit_zones th zone_ids)).
Proof.
  induction zone_ids as [| zid rest IH]; simpl; [reflexivity |].
  destruct (get_zone_by_id th zid) as [zn | e]; simpl; [| reflexivity].
  rewrite IH. now destruct (visit_zones th rest).
Qed.

Lemma visit_thermostats_with_requests g home thermostat_ids :
  visit_thermostats (home_with_requests g home) thermostat_ids
  = (map (zone_with_request g) (fst (visit_thermostats home thermostat_ids)),
     snd (visit_thermostats home thermostat_ids)).
Proof.
  induction thermostat_ids as [| tid rest IH]; simpl; [reflexivity |].
  destruct (get_thermostat_by_id home tid) as [th | e]; simpl; [| reflexivity].
  destruct (get_zone_ids th) as [zone_ids | e]; simpl; [| reflexivity].
  rewrite visit_zones_with_requests.
  destruct (visit_zones th zone_ids) as [zones [e |]]; simpl; [reflexivity |].
  rewrite IH. destruct (visit_thermostats home rest) as [zones' stop]; simpl.
  now rewrite map_app.
Qed.

Lemma phase_events_with_requests g home :
  phase_events (home_with_requests g home) = phase_events home.
Proof.
  unfold phase_events, visit. simpl.
  destruct (get_thermostat_ids home) as [ids | e]; simpl; [| reflexivity].
  rewrite visit_thermostats_with_requests. simpl.
  rewrite map_map. reflexivity.
Qed.

(** X14.  A failing request never stops the added phase of the refresh:
    with any other outcomes of [load_current_sensor_state] the phase sends
    the same requests in the same order, sleeps the same, and does not
    raise. *)
Theorem request_failures_do_not_stop_phase g home w :
  refresh_phase (home_with_requests g home) w = refresh_phase home w
  /\ fst (refresh_phase (home_with_requests g home) w) = Ok tt.
Proof.
  rewrite !refresh_phase_spec.
  now rewrite phase_events_with_requests.
Qed.
